(** * Food Calorie Scanner (app.py): a shallow embedding and its properties

    The program is a Streamlit page: the user supplies a picture, the page
    sends it to an external inference service together with a fixed prompt
    and a pydantic schema, and renders the typed reply as HTML fragments.

    The embedding follows app.py function by function:
    - [FoodItem], [NutritionAnalysis]: the two pydantic models;
    - [format_fixed]: Python's [format(x, '.Nf')] on a float;
    - [display_nutrition_results], [analyze_food_image], [main]: the three
      functions of the page, written in a small monad [App] that threads
      [st.session_state], collects the elements sent to the page and
      propagates Python exceptions.

    The statements executed when the module is loaded (page configuration
    and the style sheet, lines 13-61) precede [main] on every run and are
    the same on every run; they are left out. *)

From Stdlib Require Import ZArith NArith Lia DecimalString.
From stdpp Require Import base option list strings gmap.

(** ** Text helpers *)

(** The two characters that the templates of app.py contain and that are
    spelled by their code here: the line feed and the double quote. *)
Definition nl : string := String (Ascii.ascii_of_nat 10) EmptyString.
Definition dq : string := String (Ascii.ascii_of_nat 34) EmptyString.

(** [contains sub s]: [sub in s] of Python, on byte strings. *)
Fixpoint contains (sub s : string) : bool :=
  String.prefix sub s ||
  match s with
  | EmptyString => false
  | String _ s' => contains sub s'
  end.

(** [startswith p s]: [s.startswith(p)]. *)
Definition startswith (p s : string) : bool := String.prefix p s.

(** ** Python floats

    A Python float is an IEEE-754 binary64 value. A finite one is a signed
    dyadic rational [(-1)^neg * m * 2^e]; the binary64 values are those
    with [m < 2^53] and [-1074 <= e <= 971]. The formatting below is exact
    on every dyadic rational, so the range is not needed to state it. *)
Inductive pyfloat : Type :=
| Finite (neg : bool) (m : N) (e : Z)
| Inf (neg : bool)
| NaN.

Definition float_of_Z (z : Z) : pyfloat := Finite (z <? 0)%Z (Z.abs_N z) 0.

(** [x * 10^prec] for [x = m * 2^e], as a fraction [num / den]. *)
Definition scaled (prec : nat) (m : N) (e : Z) : N * N :=
  if (0 <=? e)%Z
  then (m * 2 ^ Z.to_N e * 10 ^ N.of_nat prec, 1)%N
  else (m * 10 ^ N.of_nat prec, 2 ^ Z.to_N (- e))%N.

(** Correct rounding of [num / den] to an integer, as CPython's float
    formatting does it (dtoa mode 3): to the nearest integer, and to the
    even one when [num / den] lies exactly half way between two. *)
Definition round_half_even (num den : N) : N :=
  let q := (num / den)%N in
  let r := (num mod den)%N in
  match (2 * r ?= den)%N with
  | Lt => q
  | Gt => (q + 1)%N
  | Eq => if N.even q then q else (q + 1)%N
  end.

Definition digits (n : N) : string := NilZero.string_of_uint (N.to_uint n).

Fixpoint zeros (k : nat) : string :=
  match k with
  | O => EmptyString
  | S k' => "0" +:+ zeros k'
  end.

(** The [prec] digits after the point: [fp] written with leading zeros. *)
Definition frac_digits (prec : nat) (fp : N) : string :=
  let d := digits fp in
  zeros (prec - String.length d) +:+ d.

Definition sign_prefix (neg : bool) : string := if neg then "-" else EmptyString.

(** [format(x, '.{prec}f')], the conversion behind [f"{x:.0f}"] and
    [f"{x:.1f}"]. The sign is that of [x] itself, also when the digits
    round to zero. *)
Definition format_fixed (prec : nat) (x : pyfloat) : string :=
  match x with
  | NaN => "nan"
  | Inf neg => sign_prefix neg +:+ "inf"
  | Finite neg m e =>
      let '(num, den) := scaled prec m e in
      let n := round_half_even num den in
      let ip := (n / 10 ^ N.of_nat prec)%N in
      let fp := (n mod 10 ^ N.of_nat prec)%N in
      sign_prefix neg +:+ digits ip +:+
      match prec with
      | O => EmptyString
      | S _ => "." +:+ frac_digits prec fp
      end
  end.

(** The exact value of a finite float, as a fraction of integers. *)
Definition float_num (x : pyfloat) : Z :=
  match x with
  | Finite neg m e =>
      let a := if (0 <=? e)%Z then (Z.of_N m * 2 ^ e)%Z else Z.of_N m in
      if neg then (- a)%Z else a
  | _ => 0%Z
  end.

Definition float_den (x : pyfloat) : Z :=
  match x with
  | Finite _ _ e => if (0 <=? e)%Z then 1%Z else (2 ^ (- e))%Z
  | _ => 1%Z
  end.

(** ** The pydantic models (app.py, lines 64-74) *)

Record FoodItem : Type := mkFoodItem {
  name : string;
  portion_grams : pyfloat;
  protein_grams : pyfloat;
  calories : pyfloat;
  carbs_grams : pyfloat
}.

Record NutritionAnalysis : Type := mkNutritionAnalysis {
  food_items : list FoodItem;
  total_calories : pyfloat;
  confidence_level : string
}.

(** ** The page: elements, session state, exceptions *)

(** One call of a Streamlit display function, with the arguments app.py
    passes. [Expander] holds the elements emitted inside its [with] block. *)
#[warnings="-register-all"]
Inductive element : Type :=
| Title (body : string)
| Markdown (body : string) (unsafe_allow_html : bool)
| Subheader (body : string)
| Expander (label : string) (expanded : bool) (children : list element)
| CameraInput (label : string)
| FileUploader (label : string) (type : list string) (label_visibility : string)
| Picture (caption : string) (use_column_width : bool)
| Button (label : string) (type : string) (use_container_width : bool)
| Spinner (text : string)
| Success (body : string)
| Error (body : string).

(** A raised Python exception: whether its class derives from [Exception]
    (KeyboardInterrupt, SystemExit and Streamlit's script-control
    exceptions do not), and [str(e)]. *)
Record py_exception : Type := PyExc {
  is_Exception : bool;
  exc_str : string
}.

Inductive outcome (A : Type) : Type :=
| Returned (a : A)
| Raised (e : py_exception).
Arguments Returned {A} a.
Arguments Raised {A} e.

(** [st.session_state]: a dictionary with string keys. The page stores
    values under one key only, and they are [NutritionAnalysis] values. *)
Abbreviation session := (gmap string NutritionAnalysis).

(** A computation of the page: it reads and writes the session state,
    emits elements, and returns a value or raises. The elements emitted
    before an exception stay on the page. *)
Definition App (A : Type) : Type :=
  session -> outcome A * session * list element.

Definition ret {A} (a : A) : App A := fun s => (Returned a, s, []).

Definition bind {A B} (m : App A) (k : A -> App B) : App B :=
  fun s =>
    match m s with
    | (Returned a, s1, o1) =>
        let '(r, s2, o2) := k a s1 in (r, s2, o1 ++ o2)
    | (Raised e, s1, o1) => (Raised e, s1, o1)
    end.

Declare Scope app_scope.
Delimit Scope app_scope with app.
Notation "x <- m ;; k" := (bind m (fun x => k))
  (at level 100, m at next level, right associativity) : app_scope.
Notation "m ;; k" := (bind m (fun _ => k))
  (at level 100, right associativity) : app_scope.
Local Open Scope app_scope.

Definition emit (e : element) : App unit := fun s => (Returned tt, s, [e]).
Definition raise {A} (e : py_exception) : App A := fun s => (Raised e, s, []).

(** The value or exception an external call produced, entering the page. *)
Definition lift {A} (r : outcome A) : App A := fun s => (r, s, []).

(** [try: body / except Exception as e: handler(e)]. Only classes derived
    from [Exception] are caught; what the body did before raising stays. *)
Definition try_except_Exception {A} (body : App A)
    (handler : py_exception -> App A) : App A :=
  fun s =>
    match body s with
    | (Returned a, s1, o1) => (Returned a, s1, o1)
    | (Raised e, s1, o1) =>
        if is_Exception e
        then let '(r, s2, o2) := handler e s1 in (r, s2, o1 ++ o2)
        else (Raised e, s1, o1)
    end.

(** [with st.expander(label, expanded): body]. *)
Definition st_expander {A} (label : string) (expanded : bool)
    (body : App A) : App A :=
  fun s => let '(r, s1, o1) := body s in (r, s1, [Expander label expanded o1]).

Definition session_contains (k : string) : App bool :=
  fun s => (Returned (bool_decide (is_Some (s !! k))), s, []).

(** [st.session_state[k]]; a missing key raises KeyError. *)
Definition session_get (k : string) : App NutritionAnalysis :=
  fun s =>
    match s !! k with
    | Some a => (Returned a, s, [])
    | None => (Raised (PyExc true ("'" +:+ k +:+ "'")), s, [])
    end.

Definition session_set (k : string) (a : NutritionAnalysis) : App unit :=
  fun s => (Returned tt, <[k := a]> s, []).

Definition result_of {A} (r : outcome A * session * list element) : outcome A :=
  r.1.1.
Definition session_of {A} (r : outcome A * session * list element) : session :=
  r.1.2.
Definition page_of {A} (r : outcome A * session * list element) : list element :=
  r.2.

(** ** display_nutrition_results (app.py, lines 123-160) *)

Definition quoted (s : string) : string := dq +:+ s +:+ dq.

(** The f-string of lines 127-132, one entry per source line. *)
Definition summary_html (analysis : NutritionAnalysis) : string :=
  String.concat nl [
    EmptyString;
    "    <div class=" +:+ quoted "total-calories" +:+ ">";
    "        🔥 Total Calories: " +:+ format_fixed 0 (total_calories analysis) +:+ " kcal";
    "        <br><small>Confidence: " +:+ confidence_level analysis +:+ "</small>";
    "    </div>";
    "    "
  ].

(** The f-string of lines 138-160, one entry per source line. *)
Definition item_html (item : FoodItem) : string :=
  String.concat nl [
    EmptyString;
    "        <div class=" +:+ quoted "food-item" +:+ ">";
    "            <h4>🍽️ " +:+ name item +:+ "</h4>";
    "            <p><strong>Portion:</strong> " +:+ format_fixed 0 (portion_grams item) +:+ "g</p>";
    "            <div class=" +:+ quoted "nutrition-grid" +:+ ">";
    "                <div class=" +:+ quoted "nutrition-item" +:+ ">";
    "                    <div style=" +:+ quoted "font-size: 1.2rem; color: #ff6b6b;" +:+ ">🔥</div>";
    "                    <div style=" +:+ quoted "font-weight: bold;" +:+ ">" +:+ format_fixed 0 (calories item) +:+ "</div>";
    "                    <div style=" +:+ quoted "font-size: 0.8rem;" +:+ ">Calories</div>";
    "                </div>";
    "                <div class=" +:+ quoted "nutrition-item" +:+ ">";
    "                    <div style=" +:+ quoted "font-size: 1.2rem; color: #4ecdc4;" +:+ ">💪</div>";
    "                    <div style=" +:+ quoted "font-weight: bold;" +:+ ">" +:+ format_fixed 1 (protein_grams item) +:+ "g</div>";
    "                    <div style=" +:+ quoted "font-size: 0.8rem;" +:+ ">Protein</div>";
    "                </div>";
    "                <div class=" +:+ quoted "nutrition-item" +:+ ">";
    "                    <div style=" +:+ quoted "font-size: 1.2rem; color: #45b7d1;" +:+ ">🌾</div>";
    "                    <div style=" +:+ quoted "font-weight: bold;" +:+ ">" +:+ format_fixed 1 (carbs_grams item) +:+ "g</div>";
    "                    <div style=" +:+ quoted "font-size: 0.8rem;" +:+ ">Carbs</div>";
    "                </div>";
    "            </div>";
    "        </div>";
    "        "
  ].

(** The [for] loop of lines 137-160: one [st.markdown] per item, in order. *)
Fixpoint display_items (items : list FoodItem) : App unit :=
  match items with
  | [] => ret tt
  | item :: rest =>
      emit (Markdown (item_html item) true);;
      display_items rest
  end.

Definition display_nutrition_results (analysis : NutritionAnalysis) : App unit :=
  emit (Markdown (summary_html analysis) true);;
  emit (Subheader "📋 Food Items Detected");;
  display_items (food_items analysis).

(** The two kinds of fragment the renderer emits, told apart by the fixed
    text their templates open with (it precedes every interpolated field). *)
Definition summary_open : string :=
  nl +:+ "    <div class=" +:+ quoted "total-calories" +:+ ">".
Definition item_open : string :=
  nl +:+ "        <div class=" +:+ quoted "food-item" +:+ ">".

Definition is_summary_fragment (e : element) : bool :=
  match e with
  | Markdown body _ => startswith summary_open body
  | _ => false
  end.

Definition is_item_fragment (e : element) : bool :=
  match e with
  | Markdown body _ => startswith item_open body
  | _ => false
  end.

Definition count_fragments (p : element -> bool) (page : list element) : nat :=
  length (filter (fun e => p e = true) page).

(** ** The reply of the service and its validation against the schema

    [config={"response_schema": NutritionAnalysis}] makes the SDK validate
    the JSON reply against the two pydantic models and expose the result
    as [response.parsed]. [json] is the decoded reply. *)
#[warnings="-register-all"]
Inductive json : Type :=
| JNull
| JBool (b : bool)
| JNum (x : pyfloat)
| JStr (s : string)
| JArr (xs : list json)
| JObj (fields : list (string * json)).

(** The value bound to key [k] in a decoded object; of several bindings of
    one key the last stands, as in a Python dict. *)
Fixpoint obj_get (k : string) (fields : list (string * json)) : option json :=
  match fields with
  | [] => None
  | (k', v) :: rest =>
      match obj_get k rest with
      | Some v' => Some v'
      | None => if String.eqb k k' then Some v else None
      end
  end.

(** The field names the two classes declare. No field has a default, so
    pydantic requires every one of them. *)
Definition FoodItem_fields : list string :=
  ["name"; "portion_grams"; "protein_grams"; "calories"; "carbs_grams"].
Definition NutritionAnalysis_fields : list string :=
  ["food_items"; "total_calories"; "confidence_level"].

Section Validation.
(** How pydantic turns a JSON value into a [float] and into a [str]
    field. Its lax mode accepts more than JSON numbers and JSON strings;
    the validation of the models is written over any such pair. *)
Variable float_validator : json -> option pyfloat.
Variable str_validator : json -> option string.

Definition FoodItem_validate (j : json) : option FoodItem :=
  match j with
  | JObj fs =>
      n ← obj_get "name" fs ≫= str_validator;
      pg ← obj_get "portion_grams" fs ≫= float_validator;
      pr ← obj_get "protein_grams" fs ≫= float_validator;
      ca ← obj_get "calories" fs ≫= float_validator;
      cb ← obj_get "carbs_grams" fs ≫= float_validator;
      Some (mkFoodItem n pg pr ca cb)
  | _ => None
  end.

Definition food_items_validate (j : json) : option (list FoodItem) :=
  match j with
  | JArr xs => mapM FoodItem_validate xs
  | _ => None
  end.

Definition NutritionAnalysis_validate (j : json) : option NutritionAnalysis :=
  match j with
  | JObj fs =>
      items ← obj_get "food_items" fs ≫= food_items_validate;
      total ← obj_get "total_calories" fs ≫= float_validator;
      conf ← obj_get "confidence_level" fs ≫= str_validator;
      Some (mkNutritionAnalysis items total conf)
  | _ => None
  end.
End Validation.

(** The validators that accept a JSON number, respectively a JSON string,
    and return it as it is. *)
Definition number_as_float (j : json) : option pyfloat :=
  match j with JNum x => Some x | _ => None end.
Definition string_as_str (j : json) : option string :=
  match j with JStr s => Some s | _ => None end.

(** The JSON document of a typed value. *)
Definition FoodItem_json (item : FoodItem) : json :=
  JObj [("name", JStr (name item));
        ("portion_grams", JNum (portion_grams item));
        ("protein_grams", JNum (protein_grams item));
        ("calories", JNum (calories item));
        ("carbs_grams", JNum (carbs_grams item))].

Definition NutritionAnalysis_json (a : NutritionAnalysis) : json :=
  JObj [("food_items", JArr (map FoodItem_json (food_items a)));
        ("total_calories", JNum (total_calories a));
        ("confidence_level", JStr (confidence_level a))].

(** An object that has no binding for [k]. *)
Definition lacks_field (k : string) (j : json) : bool :=
  match j with
  | JObj fs => bool_decide (obj_get k fs = None)
  | _ => false
  end.

Definition item_lacks_required (j : json) : bool :=
  existsb (fun k => lacks_field k j) FoodItem_fields.

(** A reply in which a required field is missing, at the top level or in
    one of the items. *)
Definition payload_lacks_required (j : json) : bool :=
  existsb (fun k => lacks_field k j) NutritionAnalysis_fields ||
  match j with
  | JObj fs =>
      match obj_get "food_items" fs with
      | Some (JArr xs) => existsb item_lacks_required xs
      | _ => false
      end
  | _ => false
  end.

(** ** analyze_food_image (app.py, lines 81-121) *)

(** The arguments of [client.models.generate_content]. *)
Record request : Type := mkRequest {
  req_model : string;
  req_data : list Byte.byte;
  req_mime_type : string;
  req_prompt : string;
  req_response_mime_type : string;
  req_response_schema : list string * list string
}.

(** The prompt of lines 86-100, one entry per source line. *)
Definition prompt : string :=
  String.concat nl [
    EmptyString;
    "        Analyze this food image and provide detailed nutritional information. ";
    "        Identify each food item visible in the image and estimate:";
    "        1. The name of each food item";
    "        2. The portion size in grams";
    "        3. Protein content in grams";
    "        4. Calories";
    "        5. Carbohydrates in grams";
    "        ";
    "        Be as accurate as possible with portion estimation based on visual cues like plate size, ";
    "        utensils, or common serving sizes. Provide a confidence level (high/medium/low) for your analysis.";
    "        ";
    "        If multiple food items are present, list each separately.";
    "        Calculate the total calories for the entire meal.";
    "        "
  ].

Definition build_request (image_bytes : list Byte.byte) : request :=
  {| req_model := "gemini-2.5-pro";
     req_data := image_bytes;
     req_mime_type := "image/jpeg";
     req_prompt := prompt;
     req_response_mime_type := "application/json";
     req_response_schema := (NutritionAnalysis_fields, FoodItem_fields) |}.

(** What the lines 84-117 can do: one of the calls raises (no
    credential, network fault, timeout, refusal of the service), or the
    call returns a response whose [parsed] attribute is the validated
    value, or None when the reply did not validate. *)
Inductive sdk_outcome : Type :=
| Raises (e : py_exception)
| Responds (parsed : option NutritionAnalysis).

(** The external service, as the page sees it. *)
Abbreviation service := (request -> sdk_outcome).

Definition generate_content (svc : service) (req : request)
    : App (option NutritionAnalysis) :=
  match svc req with
  | Raises e => raise e
  | Responds parsed => ret parsed
  end.

Definition analyze_food_image (svc : service) (image_bytes : list Byte.byte)
    : App (option NutritionAnalysis) :=
  try_except_Exception
    (parsed <- generate_content svc (build_request image_bytes);;
     ret parsed)
    (fun e =>
       emit (Error ("Error analyzing image: " +:+ exc_str e));;
       ret None).

(** A service whose reply is the JSON document [payload], validated by
    the SDK against the schema of the request. *)
Definition replying (fv : json -> option pyfloat) (sv : json -> option string)
    (payload : json) : service :=
  fun _ => Responds (NutritionAnalysis_validate fv sv payload).

(** The outcomes of the service after which there is no analysis. *)
Definition service_failed (r : sdk_outcome) : bool :=
  match r with
  | Raises e => is_Exception e
  | Responds None => true
  | Responds (Some _) => false
  end.

(** ** main (app.py, lines 163-251) *)

(** [a or b] on two values that are None or an object that is true (an
    UploadedFile defines neither [__bool__] nor [__len__]). *)
Definition py_or {A} (a b : option A) : option A :=
  match a with
  | Some x => Some x
  | None => b
  end.

Definition how_to_use : string :=
  String.concat nl [
    EmptyString;
    "        1. **Position your food** - Make sure all food items are clearly visible";
    "        2. **Good lighting** - Ensure adequate lighting for better analysis";
    "        3. **Include reference** - Objects like utensils help with portion estimation";
    "        4. **Take photo** - Click the camera button below";
    "        5. **Get results** - AI will analyze and provide nutrition information";
    "        "
  ].

Definition footer : string :=
  String.concat nl [
    EmptyString;
    "    <div style=" +:+ quoted "text-align: center; color: #666; padding: 1rem;" +:+ ">";
    "        <small>";
    "        🤖 Powered by Google Gemini AI<br>";
    "        📱 Optimized for mobile use<br>";
    "        ⚠️ Results are estimates - consult professionals for precise dietary needs";
    "        </small>";
    "    </div>";
    "    "
  ].

(** Lines 164-199: the title, the instructions and the two input
    widgets. The values the widgets return are in [World] below. *)
Definition page_intro : App unit :=
  emit (Title "🍎 Food Calorie Scanner");;
  emit (Markdown "📱 *Take a photo of your food to get instant nutrition analysis*" false);;
  emit (Subheader "📸 Capture Your Food");;
  st_expander "📋 How to use" false (emit (Markdown how_to_use false));;
  emit (CameraInput "📷 Take a picture of your food");;
  emit (Markdown "*Or upload an image:*" false);;
  emit (FileUploader "Choose an image..." ["jpg"; "jpeg"; "png"] "collapsed").

(** Lines 241-251: the footer. *)
Definition page_outro : App unit :=
  emit (Markdown "---" false);;
  emit (Markdown footer true).

Section Page.
(** The file object the two input widgets return, and the decoded
    picture of the imaging library. *)
Variables UploadedFile Image : Type.

(** One run of the script: what the widgets return and what the
    external calls do. [Image.open] reads the header of the file only;
    the pixels are decoded when [st.image] needs them, so that call may
    raise as well. *)
Record World : Type := mkWorld {
  camera_image : option UploadedFile;
  uploaded_file : option UploadedFile;
  button : bool;
  Image_open : UploadedFile -> outcome Image;
  st_image : Image -> outcome unit;
  save_JPEG : Image -> outcome (list Byte.byte);
  client : service
}.

Definition image_source (w : World) : option UploadedFile :=
  py_or (camera_image w) (uploaded_file w).

(** Lines 211-234: the body of [if st.button(...)]. [if analysis:] tests
    for None: an instance of a pydantic model is always true. *)
Definition analyze_block (w : World) (image : Image) : App unit :=
  emit (Spinner "🤖 AI is analyzing your food...");;
  img_bytes <- lift (save_JPEG w image);;
  analysis <- analyze_food_image (client w) img_bytes;;
  match analysis with
  | Some a =>
      emit (Success "✅ Analysis complete!");;
      display_nutrition_results a;;
      session_set "last_analysis" a
  | None =>
      emit (Error "❌ Failed to analyze the image. Please try again.")
  end.

(** Lines 204-234: the body of [if image_source is not None]. *)
Definition process_image (w : World) (src : UploadedFile) : App unit :=
  emit (Subheader "🖼️ Your Food Photo");;
  image <- lift (Image_open w src);;
  lift (st_image w image);;
  emit (Picture "Food to analyze" true);;
  emit (Button "🔍 Analyze Nutrition" "primary" true);;
  if button w then analyze_block w image else ret tt.

(** Lines 236-239. *)
Definition show_previous (w : World) : App unit :=
  present <- session_contains "last_analysis";;
  if present && bool_decide (image_source w = None) then
    emit (Subheader "📊 Last Analysis");;
    a <- session_get "last_analysis";;
    display_nutrition_results a
  else ret tt.

Definition main (w : World) : App unit :=
  page_intro;;
  match image_source w with
  | Some src => process_image w src
  | None => ret tt
  end;;
  show_previous w;;
  page_outro.

(** The bytes sent to the service, when the run reaches the call: a
    picture is selected, decodes and is shown, the button was pressed,
    and the picture encodes to JPEG. *)
Definition service_input (w : World) : option (list Byte.byte) :=
  match image_source w with
  | Some src =>
      match Image_open w src with
      | Returned image =>
          match st_image w image with
          | Returned _ =>
              if button w then
                match save_JPEG w image with
                | Returned bytes => Some bytes
                | Raised _ => None
                end
              else None
          | Raised _ => None
          end
      | Raised _ => None
      end
  | None => None
  end.
End Page.

Arguments mkWorld {UploadedFile Image}.
Arguments camera_image {UploadedFile Image} w.
Arguments uploaded_file {UploadedFile Image} w.
Arguments button {UploadedFile Image} w.
Arguments Image_open {UploadedFile Image} w _.
Arguments st_image {UploadedFile Image} w _.
Arguments save_JPEG {UploadedFile Image} w _.
Arguments client {UploadedFile Image} w _.
Arguments image_source {UploadedFile Image} w.
Arguments analyze_block {UploadedFile Image} w image.
Arguments process_image {UploadedFile Image} w src.
Arguments show_previous {UploadedFile Image} w.
Arguments main {UploadedFile Image} w.
Arguments service_input {UploadedFile Image} w.

(** The same run without the uploaded file, respectively without the
    camera capture. *)
Definition without_upload {U I} (w : World U I) : World U I :=
  mkWorld (camera_image w) None (button w) (Image_open w) (st_image w)
          (save_JPEG w) (client w).
Definition without_camera {U I} (w : World U I) : World U I :=
  mkWorld None (uploaded_file w) (button w) (Image_open w) (st_image w)
          (save_JPEG w) (client w).

(** ** Vocabulary of the statements *)

(** The elements one call of [display_nutrition_results] puts on the page. *)
Definition rendered (a : NutritionAnalysis) : list element :=
  Markdown (summary_html a) true ::
  Subheader "📋 Food Items Detected" ::
  map (fun item => Markdown (item_html item) true) (food_items a).

Definition intro_elements : list element := page_of (page_intro ∅).
Definition outro_elements : list element := page_of (page_outro ∅).

(** Lines 206-211: what a selected picture that decodes puts on the page. *)
Definition photo_elements : list element :=
  [Subheader "🖼️ Your Food Photo"; Picture "Food to analyze" true;
   Button "🔍 Analyze Nutrition" "primary" true].

(** The section of lines 237-239, for a given session state. *)
Definition previous_section (s : session) : list element :=
  match s !! "last_analysis" with
  | Some a => Subheader "📊 Last Analysis" :: rendered a
  | None => []
  end.

(** The two lines of a cell of the nutrition grid that carry the value and
    its label (lines 145-146, 150-151, 155-156). *)
Definition nutrition_cell (value label : string) : string :=
  "<div style=" +:+ quoted "font-weight: bold;" +:+ ">" +:+ value +:+ "</div>" +:+ nl +:+
  "                    <div style=" +:+ quoted "font-size: 0.8rem;" +:+ ">" +:+ label +:+ "</div>".

(** [text in body] for the body of some markdown fragment of the page. *)
Definition page_shows (text : string) (page : list element) : bool :=
  existsb (fun e => match e with
                    | Markdown body _ => contains text body
                    | _ => false
                    end) page.

Definition is_last_analysis_header (e : element) : bool :=
  match e with
  | Subheader body => String.eqb body "📊 Last Analysis"
  | _ => false
  end.

Definition failure_notice : element :=
  Error "❌ Failed to analyze the image. Please try again.".

Definition is_failure_notice (e : element) : bool :=
  match e with
  | Error body => String.eqb body "❌ Failed to analyze the image. Please try again."
  | _ => false
  end.

(** The exact value of a finite float as a rational, and the exact sum of
    the calories of a list of items. *)
Definition float_Q (x : pyfloat) : QArith_base.Q :=
  QArith_base.Qmake (float_num x) (Z.to_pos (float_den x)).

Definition items_calories (items : list FoodItem) : QArith_base.Q :=
  foldr (fun item acc => QArith_base.Qplus (float_Q (calories item)) acc)
        (QArith_base.Qmake 0 1) items.

(** The distance of the integer [n] from the absolute value of [x], in
    units of [1 / float_den x]. *)
Definition distance_to (n : N) (x : pyfloat) : Z :=
  Z.abs (Z.of_N n * float_den x - Z.abs (float_num x)).

(** ** The values of the scenarios *)

Definition half : pyfloat := Finite false 1 (-1).
Definition eighty_and_a_half : pyfloat := Finite false 161 (-1).
Definition eighty_one_and_a_half : pyfloat := Finite false 163 (-1).

Definition apple : FoodItem :=
  mkFoodItem "Apple" (float_of_Z 150) half (float_of_Z 80) (float_of_Z 21).

Definition scenario_A : NutritionAnalysis :=
  mkNutritionAnalysis [apple] (float_of_Z 80) "high".

Definition rice : FoodItem :=
  mkFoodItem "Rice" (float_of_Z 150) (float_of_Z 4) (float_of_Z 200) (float_of_Z 45).
Definition chicken : FoodItem :=
  mkFoodItem "Chicken" (float_of_Z 120) (float_of_Z 30) (float_of_Z 250) (float_of_Z 0).

Definition scenario_B : NutritionAnalysis :=
  mkNutritionAnalysis [rice; chicken] (float_of_Z 500) "medium".

Definition no_items : NutritionAnalysis :=
  mkNutritionAnalysis [] (float_of_Z 0) "low".

Definition half_way_item : FoodItem :=
  mkFoodItem "Toast" eighty_and_a_half half eighty_and_a_half (float_of_Z 15).
Definition half_way : NutritionAnalysis :=
  mkNutritionAnalysis [half_way_item] eighty_and_a_half "high".

(** An item without [calories], and a reply whose only item it is. *)
Definition item_without_calories : json :=
  JObj [("name", JStr "Apple");
        ("portion_grams", JNum (float_of_Z 150));
        ("protein_grams", JNum half);
        ("carbs_grams", JNum (float_of_Z 21))].

Definition reply_without_calories : json :=
  JObj [("food_items", JArr [item_without_calories]);
        ("total_calories", JNum (float_of_Z 80));
        ("confidence_level", JStr "high")].

(** Runs of the page on a picture [tt] that decodes, is shown and
    encodes. *)
Definition run_with (camera upload : option unit) (pressed : bool)
    (svc : service) : World unit unit :=
  mkWorld camera upload pressed (fun _ => Returned tt) (fun _ => Returned tt)
          (fun _ => Returned []) svc.

Definition timed_out : service :=
  fun _ => Raises (PyExc true "The read operation timed out").

Definition timeout_run : World unit unit := run_with (Some tt) None true timed_out.

(** A run with two different pictures: each one decodes to an image that
    remembers its file, the capture encodes to the byte 1 and the upload
    to the byte 2, and the service answers scenario A to the byte 1 and
    scenario B to anything else. *)
Definition two_pictures_run : World string string :=
  mkWorld (Some "capture.jpg") (Some "upload.png") true
          (fun file => Returned file)
          (fun _ => Returned tt)
          (fun image => Returned (if String.eqb image "capture.jpg"
                                  then [Byte.x01] else [Byte.x02]))
          (fun req => match req_data req with
                      | [Byte.x01] => Responds (Some scenario_A)
                      | _ => Responds (Some scenario_B)
                      end).

Definition after_scenario_A : session := {[ "last_analysis" := scenario_A ]}.

(** "Retained and displayed": after the run the slot holds what it held,
    and the page of the run shows the summary of the stored analysis. *)
Definition previous_retained_and_displayed {U I} (w : World U I) (s : session) : Prop :=
  session_of (main w s) = s /\
  forall a, s !! "last_analysis" = Some a ->
            In (Markdown (summary_html a) true) (page_of (main w s)).

(** ** Further vocabulary *)

(** The distance of [n / 10] from the absolute value of [x], in units of
    [1 / (10 * float_den x)]. *)
Definition tenths_distance_to (n : N) (x : pyfloat) : Z :=
  Z.abs (Z.of_N n * float_den x - 10 * Z.abs (float_num x)).

(** [x <= y] on the exact values of two finite floats. *)
Definition float_le (x y : pyfloat) : Prop :=
  (float_num x * float_den y <= float_num y * float_den x)%Z.

(** An element through which raw HTML reaches the page. *)
Definition is_raw_html (e : element) : bool :=
  match e with
  | Markdown _ unsafe_allow_html => unsafe_allow_html
  | _ => false
  end.

Definition is_subheader (e : element) : bool :=
  match e with
  | Subheader _ => true
  | _ => false
  end.

(** The same run against another service. *)
Definition with_client {U I} (c : service) (w : World U I) : World U I :=
  mkWorld (camera_image w) (uploaded_file w) (button w) (Image_open w) (st_image w)
          (save_JPEG w) c.

Definition is_footer (e : element) : bool :=
  match e with
  | Markdown body _ => String.eqb body footer
  | _ => false
  end.

Definition spinner : element := Spinner "🤖 AI is analyzing your food...".

(** Further runs on the picture [tt]. *)
Definition interrupted : service := fun _ => Raises (PyExc false "KeyboardInterrupt").
Definition unparsed : service := fun _ => Responds None.

Definition interrupted_run : World unit unit := run_with (Some tt) None true interrupted.
Definition unparsed_run : World unit unit := run_with (Some tt) None true unparsed.
Definition scenario_A_run : World unit unit :=
  run_with None (Some tt) true (fun _ => Responds (Some scenario_A)).
Definition scenario_B_run : World unit unit :=
  run_with (Some tt) None true (fun _ => Responds (Some scenario_B)).
Definition unpressed_run : World unit unit := run_with (Some tt) None false timed_out.

Definition undecodable_run : World unit unit :=
  mkWorld (Some tt) None true
          (fun _ => Raised (PyExc true "cannot identify image file"))
          (fun _ => Returned tt)
          (fun _ => Returned []) timed_out.

Definition truncated : py_exception := PyExc true "image file is truncated".

Definition undisplayable_run : World unit unit :=
  mkWorld (Some tt) None true
          (fun _ => Returned tt)
          (fun _ => Raised truncated)
          (fun _ => Returned []) timed_out.

Definition unencodable_run : World unit unit :=
  mkWorld (Some tt) None true
          (fun _ => Returned tt)
          (fun _ => Returned tt)
          (fun _ => Raised (PyExc true "cannot write mode RGBA as JPEG")) timed_out.

(** A reply with a field the schema does not declare. *)
Definition reply_with_fat : json :=
  JObj [("food_items", JArr [FoodItem_json apple]);
        ("fat_total", JNum half);
        ("total_calories", JNum (float_of_Z 80));
        ("confidence_level", JStr "high")].

Definition keyboard_interrupt : py_exception := PyExc false "KeyboardInterrupt".
Definition cannot_identify : py_exception := PyExc true "cannot identify image file".
Definition cannot_write : py_exception := PyExc true "cannot write mode RGBA as JPEG".
Definition read_timeout : py_exception := PyExc true "The read operation timed out".

(** A session state with a key of some other part of the application. *)
Definition with_other_key : session := {[ "draft" := scenario_B ]}.

(** ** get_gemini_client (app.py, lines 77-79) *)

(** [os.getenv(key, fallback)] on the environment of the process. *)
Definition getenv (environ : gmap string string) (key fallback : string) : string :=
  default fallback (environ !! key).

Section Client.
(** The client object of the SDK; its constructor [genai.Client(api_key=...)],
    which may raise; and [client.models.generate_content] with the read
    of [response.parsed]. *)
Variable Client : Type.
Variable Client_new : string -> outcome Client.
Variable models_generate_content : Client -> request -> sdk_outcome.

(** The function under [@st.cache_resource]: the body runs when the
    resource cache holds no client, and what it returns is cached; a body
    that raises caches nothing. The result comes with the cache after the
    call. *)
Definition get_gemini_client (environ : gmap string string)
    (cache : option Client) : outcome Client * option Client :=
  match cache with
  | Some c => (Returned c, cache)
  | None =>
      match Client_new (getenv environ "GEMINI_API_KEY" EmptyString) with
      | Returned c => (Returned c, Some c)
      | Raised e => (Raised e, None)
      end
  end.

(** Lines 84 and 102-117 of [analyze_food_image] as a [service]: the
    client is fetched, then the content is generated with it. *)
Definition service_of (environ : gmap string string) (cache : option Client)
    : service :=
  fun req =>
    match get_gemini_client environ cache with
    | (Returned c, _) => models_generate_content c req
    | (Raised e, _) => Raises e
    end.
End Client.

Arguments get_gemini_client {Client} Client_new environ cache.
Arguments service_of {Client} Client_new models_generate_content environ cache.

(** A constructor that refuses the empty key, and an environment in which
    the key was set after a first client was built. *)
Definition missing_key : py_exception := PyExc true "Missing key inputs argument!".
Definition refusing_empty_key (key : string) : outcome string :=
  match key with
  | EmptyString => Raised missing_key
  | _ => Returned key
  end.
Definition rotated_environ : gmap string string := {[ "GEMINI_API_KEY" := "new-key" ]}.
Definition first_environ : gmap string string := {[ "GEMINI_API_KEY" := "old-key" ]}.

(** * Properties *)

(** ** Text *)

Lemma prefix_append (p s : string) : String.prefix p (p +:+ s) = true.
Proof.
  induction p as [|c p IH]; simpl.
  - by destruct s.
  - destruct (Ascii.ascii_dec c c); [exact IH | congruence].
Qed.

Lemma contains_prefix (sub s : string) :
  String.prefix sub s = true -> contains sub s = true.
Proof. intros H. destruct s; cbn [contains]; rewrite H; reflexivity. Qed.

(** ** Rounding *)

Lemma round_half_even_nearest (num den : N) :
  (0 < den)%N ->
  let n := round_half_even num den in
  (2 * Z.abs (Z.of_N n * Z.of_N den - Z.of_N num) <= Z.of_N den)%Z /\
  ((2 * Z.abs (Z.of_N n * Z.of_N den - Z.of_N num) <? Z.of_N den)%Z
   || N.even n = true).
Proof.
  intros Hden. unfold round_half_even.
  pose proof (N.div_mod num den ltac:(lia)) as Hdm.
  pose proof (N.mod_lt num den ltac:(lia)) as Hlt.
  set (q := (num / den)%N) in *. set (r := (num mod den)%N) in *.
  destruct (N.compare_spec (2 * r) den) as [Heq|Hl|Hg].
  - destruct (N.even q) eqn:Hev.
    + split; [nia | rewrite Hev; apply orb_true_r].
    + split; [nia |].
      replace (q + 1)%N with (N.succ q) by lia.
      rewrite N.even_succ, <- N.negb_even, Hev. apply orb_true_r.
  - split; [nia |]. apply orb_true_iff; left. apply Z.ltb_lt. nia.
  - split; [nia |]. apply orb_true_iff; left. apply Z.ltb_lt. nia.
Qed.

Lemma scaled_exact (neg : bool) (m : N) (e : Z) :
  let x := Finite neg m e in
  Z.of_N (scaled 0 m e).1 = Z.abs (float_num x) /\
  Z.of_N (scaled 0 m e).2 = float_den x /\
  (0 < (scaled 0 m e).2)%N.
Proof.
  unfold scaled; cbn [float_num float_den].
  assert (Hsign : forall a : Z, (0 <= a)%Z ->
            Z.abs (if neg then (- a)%Z else a) = a) by (intros; destruct neg; lia).
  destruct (Z.leb_spec 0 e) as [He|He]; cbn [fst snd].
  - rewrite N.pow_0_r, N.mul_1_r, N2Z.inj_mul, N2Z.inj_pow, Z2N.id by lia.
    split; [|split; [reflexivity | lia]].
    rewrite Hsign; [reflexivity|].
    apply Z.mul_nonneg_nonneg; [lia|]. apply Z.pow_nonneg; lia.
  - rewrite N.pow_0_r, N.mul_1_r, N2Z.inj_pow, Z2N.id by lia.
    split; [rewrite Hsign; lia | split; [reflexivity|]].
    apply N.neq_0_lt_0, N.pow_nonzero. lia.
Qed.

Lemma append_empty_r (s : string) : s +:+ EmptyString = s.
Proof.
  induction s as [|c s IH]; [reflexivity|].
  change (String c (s +:+ EmptyString) = String c s). f_equal. exact IH.
Qed.

Lemma format_whole (neg : bool) (m : N) (e : Z) :
  format_fixed 0 (Finite neg m e) =
  sign_prefix neg +:+
  digits (round_half_even (scaled 0 m e).1 (scaled 0 m e).2).
Proof.
  unfold format_fixed. destruct (scaled 0 m e) as [num den]. cbn [fst snd].
  change (10 ^ N.of_nat 0)%N with 1%N. rewrite N.div_1_r.
  rewrite append_empty_r. reflexivity.
Qed.

Lemma prefix_weaken (p s t : string) :
  String.prefix p s = true -> String.prefix p (s +:+ t) = true.
Proof.
  revert s. induction p as [|c p IH]; intros s H.
  - destruct (s +:+ t); reflexivity.
  - destruct s as [|d s]; [discriminate H|].
    change (String d s +:+ t) with (String d (s +:+ t)).
    cbn [String.prefix] in *. destruct (Ascii.ascii_dec c d); [|discriminate H].
    apply IH, H.
Qed.

Lemma contains_app_l (sub s t : string) :
  contains sub s = true -> contains sub (s +:+ t) = true.
Proof.
  induction s as [|c s IH]; intros H.
  - cbn [contains] in H. rewrite orb_false_r in H.
    apply contains_prefix. apply (prefix_weaken sub EmptyString t H).
  - change (String c s +:+ t) with (String c (s +:+ t)).
    cbn [contains] in *. apply orb_true_iff in H as [H|H].
    + pose proof (prefix_weaken sub (String c s) t H) as Hp.
      change (String c s +:+ t) with (String c (s +:+ t)) in Hp.
      rewrite Hp. reflexivity.
    + rewrite (IH H). apply orb_true_r.
Qed.

Lemma contains_app_r (sub s t : string) :
  contains sub t = true -> contains sub (s +:+ t) = true.
Proof.
  intros H. induction s as [|c s IH]; [exact H|].
  change (String c s +:+ t) with (String c (s +:+ t)).
  cbn [contains]. rewrite IH. apply orb_true_r.
Qed.

Lemma contains_refl (s : string) : contains s s = true.
Proof.
  apply contains_prefix. induction s as [|c s IH]; [reflexivity|].
  cbn [String.prefix]. destruct (Ascii.ascii_dec c c); [exact IH | congruence].
Qed.

(** A text that occurs in one line occurs in the lines joined. *)
Lemma contains_concat (sub sep l : string) (lines : list string) :
  In l lines -> contains sub l = true ->
  contains sub (String.concat sep lines) = true.
Proof.
  intros Hin Hsub. induction lines as [|x xs IH]; [destruct Hin|].
  destruct xs as [|y ys].
  - destruct Hin as [->|[]]. exact Hsub.
  - change (String.concat sep (x :: y :: ys))
      with (x +:+ sep +:+ String.concat sep (y :: ys)).
    destruct Hin as [->|Hin].
    + apply contains_app_l, Hsub.
    + apply contains_app_r, contains_app_r, IH, Hin.
Qed.

Lemma append_assoc (a b c : string) : (a +:+ b) +:+ c = a +:+ b +:+ c.
Proof.
  induction a as [|x a IH]; [reflexivity|].
  change (String x ((a +:+ b) +:+ c) = String x (a +:+ b +:+ c)).
  f_equal. exact IH.
Qed.

Lemma contains_concat_tail (sub sep x y : string) (ys : list string) :
  contains sub (String.concat sep (y :: ys)) = true ->
  contains sub (String.concat sep (x :: y :: ys)) = true.
Proof.
  intros H.
  change (String.concat sep (x :: y :: ys))
    with (x +:+ sep +:+ String.concat sep (y :: ys)).
  apply contains_app_r, contains_app_r, H.
Qed.

(** A value at the end of one line together with the whole next line. *)
Lemma contains_value_and_label (P A v C sep L2 z : string) (zs : list string) :
  contains (A +:+ v +:+ C +:+ sep +:+ L2)
           (String.concat sep ((P +:+ A +:+ v +:+ C) :: L2 :: z :: zs)) = true.
Proof.
  change (String.concat sep ((P +:+ A +:+ v +:+ C) :: L2 :: z :: zs))
    with ((P +:+ A +:+ v +:+ C) +:+ sep +:+ L2 +:+ sep +:+ String.concat sep (z :: zs)).
  rewrite !append_assoc. apply contains_app_r.
  replace (A +:+ v +:+ C +:+ sep +:+ L2 +:+ sep +:+ String.concat sep (z :: zs))
    with ((A +:+ v +:+ C +:+ sep +:+ L2) +:+ sep +:+ String.concat sep (z :: zs))
    by (rewrite !append_assoc; reflexivity).
  apply contains_app_l, contains_refl.
Qed.

(** ** The renderer *)

Lemma display_items_run (items : list FoodItem) (s : session) :
  display_items items s =
  (Returned tt, s, map (fun item => Markdown (item_html item) true) items).
Proof.
  induction items as [|item rest IH]; [reflexivity|].
  cbn [display_items]. unfold bind, emit. rewrite IH. reflexivity.
Qed.

Lemma display_run (a : NutritionAnalysis) (s : session) :
  display_nutrition_results a s = (Returned tt, s, rendered a).
Proof.
  unfold display_nutrition_results, bind, emit.
  rewrite display_items_run. reflexivity.
Qed.

Lemma summary_is_summary (a : NutritionAnalysis) :
  is_summary_fragment (Markdown (summary_html a) true) = true.
Proof. apply (prefix_append summary_open). Qed.

Lemma item_is_item (item : FoodItem) :
  is_item_fragment (Markdown (item_html item) true) = true.
Proof. apply (prefix_append item_open). Qed.

Lemma summary_shows_total (a : NutritionAnalysis) :
  contains ("🔥 Total Calories: " +:+ format_fixed 0 (total_calories a) +:+ " kcal")
           (summary_html a) = true.
Proof.
  eapply contains_concat; [right; right; left; reflexivity|].
  apply (contains_app_r _ "        "), contains_refl.
Qed.

Lemma summary_shows_confidence (a : NutritionAnalysis) :
  contains ("Confidence: " +:+ confidence_level a +:+ "</small>")
           (summary_html a) = true.
Proof.
  eapply contains_concat; [right; right; right; left; reflexivity|].
  apply (contains_app_r _ "        <br><small>"), contains_refl.
Qed.

Lemma item_shows_portion (item : FoodItem) :
  contains ("<strong>Portion:</strong> " +:+ format_fixed 0 (portion_grams item) +:+ "g</p>")
           (item_html item) = true.
Proof.
  eapply contains_concat; [do 3 right; left; reflexivity|].
  apply (contains_app_r _ "            <p>"), contains_refl.
Qed.

Lemma item_shows_calories (item : FoodItem) :
  contains (">" +:+ format_fixed 0 (calories item) +:+ "</div>")
           (item_html item) = true.
Proof.
  eapply contains_concat; [do 7 right; left; reflexivity|].
  apply (contains_app_r _ ("                    <div style=" +:+ dq +:+ "font-weight: bold;" +:+ dq)),
        contains_refl.
Qed.

Lemma count_summary_items (items : list FoodItem) :
  filter (fun e => is_summary_fragment e = true)
         (map (fun item => Markdown (item_html item) true) items) = [].
Proof.
  induction items as [|item rest IH]; [reflexivity|].
  cbn [map]. rewrite filter_cons_False; [exact IH|]. discriminate.
Qed.

Lemma count_item_items (items : list FoodItem) :
  length (filter (fun e => is_item_fragment e = true)
            (map (fun item => Markdown (item_html item) true) items)) = length items.
Proof.
  induction items as [|item rest IH]; [reflexivity|].
  cbn [map]. rewrite filter_cons_True by apply item_is_item.
  cbn [length]. rewrite IH. reflexivity.
Qed.

Lemma count_summary_rendered (a : NutritionAnalysis) :
  count_fragments is_summary_fragment (rendered a) = 1.
Proof.
  unfold count_fragments, rendered.
  rewrite filter_cons_True by apply summary_is_summary.
  rewrite filter_cons_False by discriminate.
  rewrite count_summary_items. reflexivity.
Qed.

Lemma count_item_rendered (a : NutritionAnalysis) :
  count_fragments is_item_fragment (rendered a) = length (food_items a).
Proof.
  unfold count_fragments, rendered.
  rewrite filter_cons_False by discriminate.
  rewrite filter_cons_False by discriminate.
  apply count_item_items.
Qed.

(** C3. For every NutritionAnalysis whose [food_items] is empty, the
    renderer emits exactly one summary fragment, which shows
    [total_calories] (in whole units) and [confidence_level], and no item
    fragment; the only other element is the section heading. *)
Theorem empty_items_one_summary (a : NutritionAnalysis) (s : session) :
  food_items a = [] ->
  page_of (display_nutrition_results a s) =
    [Markdown (summary_html a) true; Subheader "📋 Food Items Detected"] /\
  count_fragments is_summary_fragment (page_of (display_nutrition_results a s)) = 1 /\
  count_fragments is_item_fragment (page_of (display_nutrition_results a s)) = 0 /\
  contains ("🔥 Total Calories: " +:+ format_fixed 0 (total_calories a) +:+ " kcal")
           (summary_html a) = true /\
  contains ("Confidence: " +:+ confidence_level a +:+ "</small>")
           (summary_html a) = true.
Proof.
  intros Hempty. rewrite display_run. cbn [page_of snd].
  split; [unfold rendered; rewrite Hempty; reflexivity|].
  split; [apply count_summary_rendered|].
  split; [rewrite count_item_rendered, Hempty; reflexivity|].
  split; [apply summary_shows_total | apply summary_shows_confidence].
Qed.

Lemma empty_items_one_summary_witness :
  food_items no_items = [] /\
  page_of (display_nutrition_results no_items ∅) =
    [Markdown (summary_html no_items) true; Subheader "📋 Food Items Detected"] /\
  count_fragments is_summary_fragment (page_of (display_nutrition_results no_items ∅)) = 1 /\
  count_fragments is_item_fragment (page_of (display_nutrition_results no_items ∅)) = 0 /\
  contains ("🔥 Total Calories: " +:+ format_fixed 0 (total_calories no_items) +:+ " kcal")
           (summary_html no_items) = true /\
  contains ("Confidence: " +:+ confidence_level no_items +:+ "</small>")
           (summary_html no_items) = true.
Proof.
  split; [reflexivity|].
  apply (empty_items_one_summary no_items ∅). reflexivity.
Defined.

Lemma page_shows_summary (a : NutritionAnalysis) (text : string) :
  contains text (summary_html a) = true -> page_shows text (rendered a) = true.
Proof. intros H. unfold page_shows, rendered. cbn [existsb]. rewrite H. reflexivity. Qed.

Lemma page_shows_item (a : NutritionAnalysis) (item : FoodItem) (text : string) :
  In item (food_items a) -> contains text (item_html item) = true ->
  page_shows text (rendered a) = true.
Proof.
  intros Hin H. unfold page_shows. apply existsb_exists.
  exists (Markdown (item_html item) true). split; [|exact H].
  unfold rendered. right. right.
  apply in_map_iff. exists item. split; [reflexivity | exact Hin].
Qed.

Lemma item_shows_calories_cell (item : FoodItem) :
  contains (nutrition_cell (format_fixed 0 (calories item)) "Calories")
           (item_html item) = true.
Proof.
  unfold nutrition_cell, item_html.
  do 7 apply contains_concat_tail.
  apply (contains_value_and_label "                    "
           ("<div style=" +:+ quoted "font-weight: bold;" +:+ ">")
           (format_fixed 0 (calories item)) "</div>" nl).
Qed.

(** C4, as stated, fails. 80.5 is a float (161/2); the claim renders it
    as 81, the page of the renderer shows 80: in the summary for
    [total_calories], and in the item card for [portion_grams] and
    [calories]. *)
Lemma half_way_is_not_rounded_up :
  format_fixed 0 eighty_and_a_half <> "81" /\
  page_shows "🔥 Total Calories: 81 kcal"
    (page_of (display_nutrition_results half_way ∅)) = false /\
  page_shows "🔥 Total Calories: 80 kcal"
    (page_of (display_nutrition_results half_way ∅)) = true /\
  page_shows "<strong>Portion:</strong> 81g</p>"
    (page_of (display_nutrition_results half_way ∅)) = false /\
  page_shows "<strong>Portion:</strong> 80g</p>"
    (page_of (display_nutrition_results half_way ∅)) = true /\
  page_shows (nutrition_cell "81" "Calories")
    (page_of (display_nutrition_results half_way ∅)) = false /\
  page_shows (nutrition_cell "80" "Calories")
    (page_of (display_nutrition_results half_way ∅)) = true.
Proof. split; [discriminate | vm_compute; repeat split; reflexivity]. Qed.

(** C4 (amended). For every NutritionAnalysis value the page of the
    renderer shows [total_calories] in the summary, and for every food
    item its [portion_grams] and its [calories] (over the label
    "Calories"), all three written through the '.0f' conversion; for a
    finite float that conversion writes its sign followed by the integer
    nearest to its absolute value, and a value exactly half way between
    two integers goes to the even one (80.5 is shown as 80, 81.5 as
    82). *)
Theorem whole_units_round_half_even :
  (forall (a : NutritionAnalysis) (s : session),
     page_of (display_nutrition_results a s) =
       Markdown (summary_html a) true ::
       Subheader "📋 Food Items Detected" ::
       map (fun item => Markdown (item_html item) true) (food_items a) /\
     page_shows ("🔥 Total Calories: " +:+ format_fixed 0 (total_calories a) +:+ " kcal")
                (page_of (display_nutrition_results a s)) = true /\
     forallb (fun item =>
                page_shows ("<strong>Portion:</strong> " +:+
                            format_fixed 0 (portion_grams item) +:+ "g</p>")
                           (page_of (display_nutrition_results a s)) &&
                page_shows (nutrition_cell (format_fixed 0 (calories item)) "Calories")
                           (page_of (display_nutrition_results a s)))
             (food_items a) = true) /\
  (forall a : NutritionAnalysis,
     contains ("🔥 Total Calories: " +:+ format_fixed 0 (total_calories a) +:+ " kcal")
              (summary_html a) = true) /\
  (forall item : FoodItem,
     contains ("<strong>Portion:</strong> " +:+ format_fixed 0 (portion_grams item) +:+ "g</p>")
              (item_html item) = true /\
     contains (">" +:+ format_fixed 0 (calories item) +:+ "</div>")
              (item_html item) = true) /\
  (forall (neg : bool) (m : N) (e : Z),
     exists n : N,
       format_fixed 0 (Finite neg m e) = sign_prefix neg +:+ digits n /\
       (2 * distance_to n (Finite neg m e) <= float_den (Finite neg m e))%Z /\
       ((2 * distance_to n (Finite neg m e) <? float_den (Finite neg m e))%Z
        || N.even n = true)) /\
  format_fixed 0 eighty_and_a_half = "80" /\
  format_fixed 0 eighty_one_and_a_half = "82" /\
  page_shows "🔥 Total Calories: 80 kcal"
    (page_of (display_nutrition_results half_way ∅)) = true.
Proof.
  split.
  { intros a s. rewrite display_run. cbn [page_of snd].
    split; [reflexivity|].
    split; [apply page_shows_summary, summary_shows_total|].
    apply forallb_forall. intros item Hin. apply andb_true_iff. split.
    - apply (page_shows_item a item); [exact Hin | apply item_shows_portion].
    - apply (page_shows_item a item); [exact Hin | apply item_shows_calories_cell]. }
  split; [exact summary_shows_total|].
  split; [intros item; split; [apply item_shows_portion | apply item_shows_calories]|].
  split; [|repeat split; reflexivity].
  intros neg m e.
  exists (round_half_even (scaled 0 m e).1 (scaled 0 m e).2).
  split; [apply format_whole|].
  destruct (scaled_exact neg m e) as (Hnum & Hden & Hpos).
  pose proof (round_half_even_nearest (scaled 0 m e).1 _ Hpos) as Hround.
  cbv zeta in Hround. unfold distance_to. rewrite <- Hnum, <- Hden.
  exact Hround.
Qed.

(** C5. Nothing is normalized, clamped or reconciled: [analyze_food_image]
    returns the parsed value of the response as it is; validating the JSON
    document of a typed value gives that value back; the page of the
    renderer opens with its one summary fragment, which shows
    [total_calories] as it is and depends on [total_calories] and
    [confidence_level] only, whatever the items; and in scenario B, whose
    items sum to 450 while [total_calories] is 500, the renderer and the
    whole run of the page show 500, not 450, and the analysis is stored
    as it came. *)
Theorem no_reconciliation :
  (forall (a : NutritionAnalysis) (bytes : list Byte.byte) (s : session),
     analyze_food_image (fun _ => Responds (Some a)) bytes s = (Returned (Some a), s, [])) /\
  (forall a : NutritionAnalysis,
     NutritionAnalysis_validate number_as_float string_as_str
       (NutritionAnalysis_json a) = Some a) /\
  (forall (a : NutritionAnalysis) (s : session),
     head (page_of (display_nutrition_results a s)) =
       Some (Markdown (summary_html a) true) /\
     count_fragments is_summary_fragment (page_of (display_nutrition_results a s)) = 1 /\
     page_shows ("🔥 Total Calories: " +:+ format_fixed 0 (total_calories a) +:+ " kcal")
                (page_of (display_nutrition_results a s)) = true) /\
  (forall (items items' : list FoodItem) (total : pyfloat) (conf : string),
     summary_html (mkNutritionAnalysis items total conf) =
     summary_html (mkNutritionAnalysis items' total conf)) /\
  (forall a : NutritionAnalysis,
     contains ("🔥 Total Calories: " +:+ format_fixed 0 (total_calories a) +:+ " kcal")
              (summary_html a) = true) /\
  QArith_base.Qeq_bool (items_calories (food_items scenario_B))
                       (QArith_base.Qmake 450 1) = true /\
  QArith_base.Qeq_bool (float_Q (total_calories scenario_B))
                       (QArith_base.Qmake 500 1) = true /\
  contains "🔥 Total Calories: 500 kcal" (summary_html scenario_B) = true /\
  contains "🔥 Total Calories: 450 kcal" (summary_html scenario_B) = false /\
  page_shows "🔥 Total Calories: 500 kcal"
    (page_of (display_nutrition_results scenario_B ∅)) = true /\
  page_shows "🔥 Total Calories: 450 kcal"
    (page_of (display_nutrition_results scenario_B ∅)) = false /\
  page_shows "🔥 Total Calories: 500 kcal" (page_of (main scenario_B_run ∅)) = true /\
  page_shows "🔥 Total Calories: 450 kcal" (page_of (main scenario_B_run ∅)) = false /\
  session_of (main scenario_B_run ∅) = <["last_analysis" := scenario_B]> ∅.
Proof.
  split; [reflexivity|].
  split; [|split; [|split; [reflexivity|]]].
  - intros [items total conf].
    assert (Hitems : forall l : list FoodItem,
              mapM (FoodItem_validate number_as_float string_as_str)
                   (map FoodItem_json l) = Some l).
    { induction l as [|[n pg pr ca cb] rest IH]; [reflexivity|].
      cbn [map mapM]. rewrite IH. reflexivity. }
    unfold NutritionAnalysis_validate, NutritionAnalysis_json.
    cbn -[mapM FoodItem_validate]. rewrite Hitems. reflexivity.
  - intros a s. rewrite display_run. cbn [page_of snd].
    split; [reflexivity|]. split; [apply count_summary_rendered|].
    apply page_shows_summary, summary_shows_total.
  - split; [exact summary_shows_total|].
    do 8 (split; [vm_compute; reflexivity|]).
    reflexivity.
Qed.

(** C6. In scenario A the page shows the summary with
    "🔥 Total Calories: 80 kcal" and the confidence "high", the heading,
    and exactly one item card, with the name "Apple", the portion "150g",
    and the cells "80" Calories, "0.5g" Protein and "21.0g" Carbs. *)
Theorem scenario_A_rendering (s : session) :
  exists summary card : string,
    page_of (display_nutrition_results scenario_A s) =
      [Markdown summary true; Subheader "📋 Food Items Detected"; Markdown card true] /\
    is_summary_fragment (Markdown summary true) = true /\
    is_item_fragment (Markdown card true) = true /\
    count_fragments is_item_fragment (page_of (display_nutrition_results scenario_A s)) = 1 /\
    contains "🔥 Total Calories: 80 kcal" summary = true /\
    contains "Confidence: high</small>" summary = true /\
    contains "<h4>🍽️ Apple</h4>" card = true /\
    contains "<strong>Portion:</strong> 150g</p>" card = true /\
    contains (nutrition_cell "80" "Calories") card = true /\
    contains (nutrition_cell "0.5g" "Protein") card = true /\
    contains (nutrition_cell "21.0g" "Carbs") card = true.
Proof.
  exists (summary_html scenario_A), (item_html apple).
  rewrite display_run. cbn [page_of snd].
  split; [reflexivity|].
  split; [apply summary_is_summary|].
  split; [apply item_is_item|].
  split; [apply count_item_rendered|].
  vm_compute. repeat split; reflexivity.
Qed.

(** C8. Rendering is a function of the NutritionAnalysis alone: from
    every session state it returns normally, leaves the session state as
    it was, and emits the elements [rendered a]; two renders of one value,
    from whatever states, emit the same elements. *)
Theorem display_nutrition_results_pure (a : NutritionAnalysis) (s1 s2 : session) :
  display_nutrition_results a s1 = (Returned tt, s1, rendered a) /\
  page_of (display_nutrition_results a s1) = page_of (display_nutrition_results a s2).
Proof. rewrite !display_run. split; reflexivity. Qed.

(** ** Validation *)

(** Case analysis on the fields read before the missing one. *)
Ltac step_fields fs :=
  cbn; try reflexivity;
  repeat (match goal with
          | |- context [mbind ?f (obj_get ?k fs)] => destruct (mbind f (obj_get k fs))
          end; cbn; try reflexivity).

Lemma item_missing_fails fv sv (j : json) :
  item_lacks_required j = true -> FoodItem_validate fv sv j = None.
Proof.
  destruct j as [| | | | |fs]; try reflexivity.
  unfold item_lacks_required, FoodItem_fields, lacks_field. cbn [existsb].
  rewrite !orb_true_iff, !bool_decide_eq_true.
  unfold FoodItem_validate.
  intros [H|[H|[H|[H|[H|H]]]]]; try discriminate H; rewrite H; step_fields fs.
Qed.

Lemma items_missing_fail fv sv (xs : list json) :
  existsb item_lacks_required xs = true -> mapM (FoodItem_validate fv sv) xs = None.
Proof.
  induction xs as [|x xs IH]; cbn [existsb]; [discriminate|].
  intros [H|H]%orb_true_iff; cbn.
  - rewrite (item_missing_fails _ _ _ H). reflexivity.
  - rewrite (IH H). destruct (FoodItem_validate fv sv x); reflexivity.
Qed.

Lemma payload_missing_fails fv sv (p : json) :
  payload_lacks_required p = true -> NutritionAnalysis_validate fv sv p = None.
Proof.
  destruct p as [| | | | |fs]; try reflexivity.
  unfold payload_lacks_required, NutritionAnalysis_fields, lacks_field. cbn [existsb].
  rewrite !orb_true_iff, !bool_decide_eq_true.
  unfold NutritionAnalysis_validate.
  intros [[H|[H|[H|H]]]|H]; try discriminate H; try (rewrite H; step_fields fs).
  destruct (obj_get "food_items" fs) as [[| | | |xs|]|]; try discriminate H.
  cbn. rewrite (items_missing_fail _ _ _ H). reflexivity.
Qed.


(** ** The page *)

Lemma analyze_run (svc : service) (bytes : list Byte.byte) (s : session) :
  analyze_food_image svc bytes s =
  match svc (build_request bytes) with
  | Raises e =>
      if is_Exception e
      then (Returned None, s, [Error ("Error analyzing image: " +:+ exc_str e)])
      else (Raised e, s, [])
  | Responds parsed => (Returned parsed, s, [])
  end.
Proof.
  unfold analyze_food_image, try_except_Exception, bind, generate_content.
  destruct (svc (build_request bytes)) as [e|parsed]; [|reflexivity].
  unfold raise. destruct (is_Exception e); reflexivity.
Qed.

Lemma page_intro_run (s : session) : page_intro s = (Returned tt, s, intro_elements).
Proof. reflexivity. Qed.

Lemma page_outro_run (s : session) : page_outro s = (Returned tt, s, outro_elements).
Proof. reflexivity. Qed.

Section PageFacts.
Context {UploadedFile Image : Type}.
Implicit Types (w : World UploadedFile Image) (s : session).

Lemma show_previous_run w s :
  show_previous w s =
  (Returned tt, s,
   match image_source w with
   | None => previous_section s
   | Some _ => []
   end).
Proof.
  unfold show_previous, previous_section, bind, session_contains, session_get, emit, ret.
  destruct (image_source w) as [src|], (s !! "last_analysis") as [a|] eqn:Hs;
    cbn -[display_nutrition_results]; try reflexivity.
  rewrite Hs, display_run. reflexivity.
Qed.

Lemma analyze_block_run w image s :
  analyze_block w image s =
  match save_JPEG w image with
  | Raised e => (Raised e, s, [Spinner "🤖 AI is analyzing your food..."])
  | Returned bytes =>
      match client w (build_request bytes) with
      | Raises e =>
          if is_Exception e
          then (Returned tt, s,
                [Spinner "🤖 AI is analyzing your food...";
                 Error ("Error analyzing image: " +:+ exc_str e);
                 failure_notice])
          else (Raised e, s, [Spinner "🤖 AI is analyzing your food..."])
      | Responds None =>
          (Returned tt, s, [Spinner "🤖 AI is analyzing your food..."; failure_notice])
      | Responds (Some a) =>
          (Returned tt, <["last_analysis" := a]> s,
           Spinner "🤖 AI is analyzing your food..." ::
           Success "✅ Analysis complete!" :: rendered a)
      end
  end.
Proof.
  unfold analyze_block, bind, lift, emit.
  destruct (save_JPEG w image) as [bytes|e]; [|reflexivity].
  rewrite analyze_run.
  destruct (client w (build_request bytes)) as [e|[a|]].
  - destruct (is_Exception e); reflexivity.
  - rewrite display_run. unfold session_set. cbn [app]. rewrite app_nil_r. reflexivity.
  - reflexivity.
Qed.

Lemma process_image_run w src s :
  process_image w src s =
  match Image_open w src with
  | Raised e => (Raised e, s, [Subheader "🖼️ Your Food Photo"])
  | Returned image =>
      match st_image w image with
      | Raised e => (Raised e, s, [Subheader "🖼️ Your Food Photo"])
      | Returned _ =>
          if button w
          then let '(r, s1, o) := analyze_block w image s in (r, s1, photo_elements ++ o)
          else (Returned tt, s, photo_elements)
      end
  end.
Proof.
  unfold process_image, bind, lift, emit, ret.
  destruct (Image_open w src) as [image|e]; [|reflexivity].
  destruct (st_image w image) as [[]|e]; [|reflexivity].
  destruct (button w); [|reflexivity].
  destruct (analyze_block w image s) as [[r s1] o]. reflexivity.
Qed.

Lemma main_run w s :
  main w s =
  match image_source w with
  | None => (Returned tt, s, intro_elements ++ previous_section s ++ outro_elements)
  | Some src =>
      match process_image w src s with
      | (Returned _, s1, o) => (Returned tt, s1, intro_elements ++ o ++ outro_elements)
      | (Raised e, s1, o) => (Raised e, s1, intro_elements ++ o)
      end
  end.
Proof.
  unfold main, bind. rewrite page_intro_run.
  destruct (image_source w) as [src|] eqn:Hsrc.
  - destruct (process_image w src s) as [[[[]|e] s1] o]; [|reflexivity].
    rewrite show_previous_run, Hsrc, page_outro_run. reflexivity.
  - unfold ret. rewrite show_previous_run, Hsrc, page_outro_run. reflexivity.
Qed.
End PageFacts.

Lemma count_app (p : element -> bool) (l1 l2 : list element) :
  count_fragments p (l1 ++ l2) = count_fragments p l1 + count_fragments p l2.
Proof. unfold count_fragments. rewrite filter_app, length_app. reflexivity. Qed.

Lemma count_cons (p : element -> bool) (e : element) (l : list element) :
  count_fragments p (e :: l) = (if p e then 1 else 0) + count_fragments p l.
Proof.
  unfold count_fragments. destruct (p e) eqn:He.
  - rewrite filter_cons_True by exact He. reflexivity.
  - rewrite filter_cons_False by (rewrite He; discriminate). reflexivity.
Qed.

Lemma count_header_rendered (a : NutritionAnalysis) :
  count_fragments is_last_analysis_header (rendered a) = 0.
Proof.
  unfold rendered. rewrite !count_cons. cbn.
  induction (food_items a) as [|item rest IH]; [reflexivity|].
  cbn [map]. rewrite count_cons. exact IH.
Qed.

(** C2. A reply in which a required field is missing, at the top level
    or in one of the items, does not validate, whatever pydantic accepts
    for the scalar fields: no NutritionAnalysis is built from it, and
    [analyze_food_image] returns None for it. Likewise no FoodItem is
    built from an item object that lacks one of its five fields. *)
Theorem missing_field_is_a_failure (fv : json -> option pyfloat)
    (sv : json -> option string) (payload item : json)
    (bytes : list Byte.byte) (s : session) :
  payload_lacks_required payload = true ->
  item_lacks_required item = true ->
  NutritionAnalysis_validate fv sv payload = None /\
  FoodItem_validate fv sv item = None /\
  analyze_food_image (replying fv sv payload) bytes s = (Returned None, s, []).
Proof.
  intros Hmiss Hitem.
  pose proof (payload_missing_fails fv sv payload Hmiss) as Hnone.
  split; [exact Hnone|].
  split; [exact (item_missing_fails fv sv item Hitem)|].
  rewrite analyze_run. unfold replying. rewrite Hnone. reflexivity.
Qed.

Section RunFacts.
Context {UploadedFile Image : Type}.
Implicit Types (w : World UploadedFile Image) (s : session).

(** What is sent to the page between the photo and the footer when the
    service fails: the handler's notice, if the call raised, and the
    failure notice of [main]. *)
Lemma failed_run w bytes s :
  service_input w = Some bytes ->
  service_failed (client w (build_request bytes)) = true ->
  exists notices : list element,
    main w s =
      (Returned tt, s,
       intro_elements ++
       (photo_elements ++
        Spinner "🤖 AI is analyzing your food..." :: notices ++ [failure_notice]) ++
       outro_elements) /\
    (notices = [] \/
     exists msg, notices = [Error ("Error analyzing image: " +:+ msg)]).
Proof.
  unfold service_input. intros Hin Hfail.
  rewrite main_run.
  destruct (image_source w) as [src|]; [|discriminate Hin].
  rewrite process_image_run.
  destruct (Image_open w src) as [image|e]; [|discriminate Hin].
  destruct (st_image w image) as [[]|e]; [|discriminate Hin].
  destruct (button w); [|discriminate Hin].
  rewrite analyze_block_run.
  destruct (save_JPEG w image) as [b|e]; [|discriminate Hin].
  injection Hin as ->.
  destruct (client w (build_request bytes)) as [e|[a|]]; cbn in Hfail.
  - rewrite Hfail. exists [Error ("Error analyzing image: " +:+ exc_str e)].
    split; [reflexivity | right; eauto].
  - discriminate Hfail.
  - exists []. split; [reflexivity | left; reflexivity].
Qed.

(** The slot after a run: written when the service returned a validated
    analysis, untouched otherwise. *)
Lemma session_after_run w s :
  session_of (main w s) =
  match service_input w with
  | Some bytes =>
      match client w (build_request bytes) with
      | Responds (Some a) => <["last_analysis" := a]> s
      | _ => s
      end
  | None => s
  end.
Proof.
  unfold service_input. rewrite main_run.
  destruct (image_source w) as [src|]; [|reflexivity].
  rewrite process_image_run.
  destruct (Image_open w src) as [image|e]; [|reflexivity].
  destruct (st_image w image) as [[]|e]; [|reflexivity].
  destruct (button w); [|reflexivity].
  rewrite analyze_block_run.
  destruct (save_JPEG w image) as [b|e]; [|reflexivity].
  destruct (client w (build_request b)) as [e|[a|]]; try reflexivity.
  destruct (is_Exception e); reflexivity.
Qed.

(** With a picture selected, the page and the result of the run do not
    depend on the session state, and the page has no "Last Analysis"
    section. *)
Lemma selected_run_ignores_session w src s :
  image_source w = Some src ->
  page_of (main w s) = page_of (main w ∅) /\
  result_of (main w s) = result_of (main w ∅) /\
  count_fragments is_last_analysis_header (page_of (main w s)) = 0.
Proof.
  intros Hsrc. rewrite !main_run, Hsrc, !process_image_run.
  destruct (Image_open w src) as [image|e]; [|repeat split; reflexivity].
  destruct (st_image w image) as [[]|e]; [|repeat split; reflexivity].
  destruct (button w); [|repeat split; reflexivity].
  rewrite !analyze_block_run.
  destruct (save_JPEG w image) as [b|e]; [|repeat split; reflexivity].
  destruct (client w (build_request b)) as [e|[a|]].
  - destruct (is_Exception e); repeat split; reflexivity.
  - split; [reflexivity|]. split; [reflexivity|].
    cbn [page_of snd]. rewrite !count_app, !count_cons, count_header_rendered.
    reflexivity.
  - repeat split; reflexivity.
Qed.

(** C1. When the call of the service fails (one of the calls raises an
    exception derived from Exception: network fault, timeout, refused
    credential; or the reply does not validate and [parsed] is None),
    [analyze_food_image] returns None and leaves the session state as it
    was, [main] returns normally, the page shows the failure notice
    once, and the renderer is not entered: the page has no summary and
    no item fragment. *)
Theorem service_failure_is_reported w bytes s :
  service_input w = Some bytes ->
  service_failed (client w (build_request bytes)) = true ->
  result_of (analyze_food_image (client w) bytes s) = Returned None /\
  session_of (analyze_food_image (client w) bytes s) = s /\
  result_of (main w s) = Returned tt /\
  In failure_notice (page_of (main w s)) /\
  count_fragments is_failure_notice (page_of (main w s)) = 1 /\
  count_fragments is_summary_fragment (page_of (main w s)) = 0 /\
  count_fragments is_item_fragment (page_of (main w s)) = 0.
Proof.
  intros Hin Hfail.
  split; [|split].
  - rewrite analyze_run.
    destruct (client w (build_request bytes)) as [e|[a|]]; cbn in Hfail;
      [rewrite Hfail; reflexivity | discriminate Hfail | reflexivity].
  - rewrite analyze_run.
    destruct (client w (build_request bytes)) as [e|[a|]]; cbn in Hfail;
      [rewrite Hfail; reflexivity | discriminate Hfail | reflexivity].
  - destruct (failed_run w bytes s Hin Hfail) as (notices & -> & Hnotices).
    cbn [result_of page_of fst snd].
    split; [reflexivity|].
    split.
    { apply in_or_app; right. apply in_or_app; left.
      apply in_or_app; right. right. apply in_or_app; right. left. reflexivity. }
    destruct Hnotices as [->|[msg ->]]; repeat split; reflexivity.
Qed.

(** C7 (amended). On every failed analysis the slot of the most recent
    analysis is left as it was (a run writes it only when the service
    returned a validated analysis), so a previous analysis stays
    retained. The failing run itself does not display it: its page has
    no summary fragment and no "Last Analysis" section. It is displayed
    again on a run in which no picture is selected. *)
Theorem failed_analysis_keeps_slot w bytes s :
  service_input w = Some bytes ->
  service_failed (client w (build_request bytes)) = true ->
  session_of (main w s) = s /\
  count_fragments is_summary_fragment (page_of (main w s)) = 0 /\
  count_fragments is_last_analysis_header (page_of (main w s)) = 0 /\
  (forall w' : World UploadedFile Image,
     page_of (main (without_camera (without_upload w')) (session_of (main w s))) =
     intro_elements ++
     match s !! "last_analysis" with
     | Some a => Subheader "📊 Last Analysis" :: rendered a
     | None => []
     end ++ outro_elements) /\
  (forall (w' : World UploadedFile Image) (s' : session),
     session_of (main w' s') =
     match service_input w' with
     | Some bytes' =>
         match client w' (build_request bytes') with
         | Responds (Some a) => <["last_analysis" := a]> s'
         | _ => s'
         end
     | None => s'
     end).
Proof.
  intros Hin Hfail.
  destruct (failed_run w bytes s Hin Hfail) as (notices & Hrun & Hnotices).
  rewrite Hrun. cbn [session_of page_of fst snd].
  split; [reflexivity|].
  split; [destruct Hnotices as [->|[msg ->]]; reflexivity|].
  split; [destruct Hnotices as [->|[msg ->]]; reflexivity|].
  split; [|exact session_after_run].
  intros w'. rewrite main_run. reflexivity.
Qed.

(** The run on a selected picture [src], by what the external calls do:
    [src] is the file opened, the image decoded from it is the one shown
    and encoded, and the bytes of that encoding are the ones sent. *)
Lemma main_on_picture w (src : UploadedFile) s :
  image_source w = Some src ->
  main w s =
    match Image_open w src with
    | Raised e => (Raised e, s, intro_elements ++ [Subheader "🖼️ Your Food Photo"])
    | Returned image =>
        match st_image w image with
        | Raised e => (Raised e, s, intro_elements ++ [Subheader "🖼️ Your Food Photo"])
        | Returned _ =>
            if button w then
              match save_JPEG w image with
              | Raised e => (Raised e, s, intro_elements ++ photo_elements ++ [spinner])
              | Returned bytes =>
                  match client w (build_request bytes) with
                  | Raises e =>
                      if is_Exception e
                      then (Returned tt, s,
                            intro_elements ++
                            (photo_elements ++
                             [spinner; Error ("Error analyzing image: " +:+ exc_str e);
                              failure_notice]) ++
                            outro_elements)
                      else (Raised e, s, intro_elements ++ photo_elements ++ [spinner])
                  | Responds None =>
                      (Returned tt, s,
                       intro_elements ++ (photo_elements ++ [spinner; failure_notice]) ++
                       outro_elements)
                  | Responds (Some a) =>
                      (Returned tt, <["last_analysis" := a]> s,
                       intro_elements ++
                       (photo_elements ++
                        spinner :: Success "✅ Analysis complete!" :: rendered a) ++
                       outro_elements)
                  end
              end
            else (Returned tt, s, intro_elements ++ photo_elements ++ outro_elements)
        end
    end.
Proof.
  intros Hsrc. rewrite main_run, Hsrc, process_image_run.
  destruct (Image_open w src) as [image|e]; [|reflexivity].
  destruct (st_image w image) as [[]|e]; [|reflexivity].
  destruct (button w); [|reflexivity].
  rewrite analyze_block_run.
  destruct (save_JPEG w image) as [bytes|e]; [|reflexivity].
  destruct (client w (build_request bytes)) as [e|[a|]]; try reflexivity.
  destruct (is_Exception e); reflexivity.
Qed.

(** C9. When the camera returned a capture, the capture is the picture of
    the run: it is the file opened, its image is the one shown and
    encoded, and the bytes of that encoding are the ones sent to the
    service; the run is the same as without the uploaded file, whether
    there is one or not. The uploaded file is the picture of the run when
    there is no capture: then it is the file opened, encoded and sent. *)
Theorem camera_capture_takes_precedence w cam s :
  camera_image w = Some cam ->
  image_source w = Some cam /\
  main w s = main (without_upload w) s /\
  image_source (without_camera w) = uploaded_file w /\
  main w s =
    match Image_open w cam with
    | Raised e => (Raised e, s, intro_elements ++ [Subheader "🖼️ Your Food Photo"])
    | Returned image =>
        match st_image w image with
        | Raised e => (Raised e, s, intro_elements ++ [Subheader "🖼️ Your Food Photo"])
        | Returned _ =>
            if button w then
              match save_JPEG w image with
              | Raised e => (Raised e, s, intro_elements ++ photo_elements ++ [spinner])
              | Returned bytes =>
                  match client w (build_request bytes) with
                  | Raises e =>
                      if is_Exception e
                      then (Returned tt, s,
                            intro_elements ++
                            (photo_elements ++
                             [spinner; Error ("Error analyzing image: " +:+ exc_str e);
                              failure_notice]) ++
                            outro_elements)
                      else (Raised e, s, intro_elements ++ photo_elements ++ [spinner])
                  | Responds None =>
                      (Returned tt, s,
                       intro_elements ++ (photo_elements ++ [spinner; failure_notice]) ++
                       outro_elements)
                  | Responds (Some a) =>
                      (Returned tt, <["last_analysis" := a]> s,
                       intro_elements ++
                       (photo_elements ++
                        spinner :: Success "✅ Analysis complete!" :: rendered a) ++
                       outro_elements)
                  end
              end
            else (Returned tt, s, intro_elements ++ photo_elements ++ outro_elements)
        end
    end /\
  main (without_camera w) s =
    match uploaded_file w with
    | None => (Returned tt, s, intro_elements ++ previous_section s ++ outro_elements)
    | Some upl =>
        match Image_open w upl with
        | Raised e => (Raised e, s, intro_elements ++ [Subheader "🖼️ Your Food Photo"])
        | Returned image =>
            match st_image w image with
            | Raised e => (Raised e, s, intro_elements ++ [Subheader "🖼️ Your Food Photo"])
            | Returned _ =>
                if button w then
                  match save_JPEG w image with
                  | Raised e => (Raised e, s, intro_elements ++ photo_elements ++ [spinner])
                  | Returned bytes =>
                      match client w (build_request bytes) with
                      | Raises e =>
                          if is_Exception e
                          then (Returned tt, s,
                                intro_elements ++
                                (photo_elements ++
                                 [spinner; Error ("Error analyzing image: " +:+ exc_str e);
                                  failure_notice]) ++
                                outro_elements)
                          else (Raised e, s, intro_elements ++ photo_elements ++ [spinner])
                      | Responds None =>
                          (Returned tt, s,
                           intro_elements ++ (photo_elements ++ [spinner; failure_notice]) ++
                           outro_elements)
                      | Responds (Some a) =>
                          (Returned tt, <["last_analysis" := a]> s,
                           intro_elements ++
                           (photo_elements ++
                            spinner :: Success "✅ Analysis complete!" :: rendered a) ++
                           outro_elements)
                      end
                  end
                else (Returned tt, s, intro_elements ++ photo_elements ++ outro_elements)
            end
        end
    end.
Proof.
  intros Hcam.
  assert (Hsrc : image_source w = Some cam)
    by (unfold image_source; rewrite Hcam; reflexivity).
  split; [exact Hsrc|].
  split; [destruct w as [c f b io si sj cl]; cbn in Hcam; subst c; reflexivity|].
  split; [reflexivity|].
  split; [exact (main_on_picture w cam s Hsrc)|].
  destruct (uploaded_file w) as [upl|] eqn:Hupl.
  - assert (Hsrc' : image_source (without_camera w) = Some upl)
      by (unfold image_source, without_camera; cbn [camera_image uploaded_file py_or];
          exact Hupl).
    exact (main_on_picture (without_camera w) upl s Hsrc').
  - rewrite main_run.
    assert (Hnone : image_source (without_camera w) = None)
      by (unfold image_source, without_camera; cbn [camera_image uploaded_file py_or];
          exact Hupl).
    rewrite Hnone. reflexivity.
Qed.

(** C10. Without a picture selected the page is the introduction, the
    "Last Analysis" section when the slot holds an analysis (and nothing
    otherwise), and the footer. With a picture selected the page and
    the result of the run are the same as from an empty session state,
    and the page has no "Last Analysis" section: the stored analysis is
    not rendered, also when the analysis of the picture fails. *)
Theorem previous_shown_only_without_image w s :
  match image_source w with
  | None =>
      main w s =
      (Returned tt, s,
       intro_elements ++
       match s !! "last_analysis" with
       | Some a => Subheader "📊 Last Analysis" :: rendered a
       | None => []
       end ++ outro_elements)
  | Some _ =>
      page_of (main w s) = page_of (main w ∅) /\
      result_of (main w s) = result_of (main w ∅) /\
      count_fragments is_last_analysis_header (page_of (main w s)) = 0
  end.
Proof.
  destruct (image_source w) as [src|] eqn:Hsrc.
  - exact (selected_run_ignores_session w src s Hsrc).
  - rewrite main_run, Hsrc. reflexivity.
Qed.
End RunFacts.

(** ** The theorems at concrete runs *)

Lemma service_failure_is_reported_witness :
  service_input timeout_run = Some [] /\
  service_failed (client timeout_run (build_request [])) = true /\
  result_of (analyze_food_image (client timeout_run) [] after_scenario_A) = Returned None /\
  session_of (analyze_food_image (client timeout_run) [] after_scenario_A) = after_scenario_A /\
  result_of (main timeout_run after_scenario_A) = Returned tt /\
  In failure_notice (page_of (main timeout_run after_scenario_A)) /\
  count_fragments is_failure_notice (page_of (main timeout_run after_scenario_A)) = 1 /\
  count_fragments is_summary_fragment (page_of (main timeout_run after_scenario_A)) = 0 /\
  count_fragments is_item_fragment (page_of (main timeout_run after_scenario_A)) = 0.
Proof.
  split; [reflexivity|]. split; [reflexivity|].
  apply (service_failure_is_reported timeout_run [] after_scenario_A); reflexivity.
Defined.

Lemma missing_field_is_a_failure_witness :
  payload_lacks_required reply_without_calories = true /\
  item_lacks_required item_without_calories = true /\
  NutritionAnalysis_validate number_as_float string_as_str reply_without_calories = None /\
  FoodItem_validate number_as_float string_as_str item_without_calories = None /\
  analyze_food_image (replying number_as_float string_as_str reply_without_calories) [] ∅ =
    (Returned None, ∅, []).
Proof.
  split; [reflexivity|]. split; [reflexivity|].
  apply (missing_field_is_a_failure number_as_float string_as_str
           reply_without_calories item_without_calories [] ∅); reflexivity.
Defined.

(** C7, as stated, fails. The slot holds the analysis of scenario A, a
    picture is selected and its analysis times out: the slot is left as
    it was, but the page of that run does not show the stored analysis. *)
Lemma failing_run_does_not_display_previous :
  ~ previous_retained_and_displayed timeout_run after_scenario_A.
Proof.
  intros [_ Hshown].
  specialize (Hshown scenario_A eq_refl).
  vm_compute in Hshown.
  repeat (destruct Hshown as [Hshown|Hshown]; [discriminate Hshown|]).
  exact Hshown.
Qed.

Lemma failed_analysis_keeps_slot_witness :
  service_input timeout_run = Some [] /\
  service_failed (client timeout_run (build_request [])) = true /\
  session_of (main timeout_run after_scenario_A) = after_scenario_A /\
  count_fragments is_summary_fragment (page_of (main timeout_run after_scenario_A)) = 0 /\
  page_of (main (without_camera (without_upload timeout_run))
                (session_of (main timeout_run after_scenario_A))) =
    intro_elements ++
    (Subheader "📊 Last Analysis" :: rendered scenario_A) ++
    outro_elements.
Proof.
  split; [reflexivity|]. split; [reflexivity|].
  destruct (failed_analysis_keeps_slot timeout_run [] after_scenario_A
              eq_refl eq_refl) as (Hslot & Hsummary & _ & Hlater & _).
  split; [exact Hslot|]. split; [exact Hsummary|].
  exact (Hlater timeout_run).
Defined.

Lemma camera_capture_takes_precedence_witness :
  camera_image two_pictures_run = Some "capture.jpg" /\
  uploaded_file two_pictures_run = Some "upload.png" /\
  image_source two_pictures_run = Some "capture.jpg" /\
  main two_pictures_run ∅ = main (without_upload two_pictures_run) ∅ /\
  main two_pictures_run ∅ =
    (Returned tt, <["last_analysis" := scenario_A]> ∅,
     intro_elements ++
     (photo_elements ++ spinner :: Success "✅ Analysis complete!" :: rendered scenario_A) ++
     outro_elements) /\
  main (without_camera two_pictures_run) ∅ =
    (Returned tt, <["last_analysis" := scenario_B]> ∅,
     intro_elements ++
     (photo_elements ++ spinner :: Success "✅ Analysis complete!" :: rendered scenario_B) ++
     outro_elements).
Proof.
  split; [reflexivity|]. split; [reflexivity|].
  destruct (camera_capture_takes_precedence two_pictures_run "capture.jpg" ∅ eq_refl)
    as (Hsource & Hsame & _ & Hcapture & Hupload).
  split; [exact Hsource|]. split; [exact Hsame|].
  split; [exact Hcapture | exact Hupload].
Defined.

(** * Further properties of the code *)

(** ** Number formatting (lines 129, 141, 145, 150, 155) *)

Lemma scaled_tenths (neg : bool) (m : N) (e : Z) :
  Z.of_N (scaled 1 m e).1 = (10 * Z.abs (float_num (Finite neg m e)))%Z /\
  Z.of_N (scaled 1 m e).2 = float_den (Finite neg m e) /\
  (0 < (scaled 1 m e).2)%N.
Proof.
  destruct (scaled_exact neg m e) as (Hnum & Hden & Hpos).
  revert Hnum Hden Hpos. unfold scaled.
  change (10 ^ N.of_nat 1)%N with 10%N. change (10 ^ N.of_nat 0)%N with 1%N.
  destruct (0 <=? e)%Z; cbn [fst snd]; intros Hnum Hden Hpos;
    (split; [|split; assumption]); lia.
Qed.

Lemma one_digit (d : N) : (d < 10)%N -> String.length (digits d) = 1.
Proof.
  intros Hd.
  assert (d = 0 \/ d = 1 \/ d = 2 \/ d = 3 \/ d = 4 \/
          d = 5 \/ d = 6 \/ d = 7 \/ d = 8 \/ d = 9)%N as Hcases by lia.
  repeat (destruct Hcases as [->|Hcases]; [reflexivity|]).
  subst d. reflexivity.
Qed.

Lemma format_tenths (neg : bool) (m : N) (e : Z) :
  format_fixed 1 (Finite neg m e) =
  sign_prefix neg +:+
  digits (round_half_even (scaled 1 m e).1 (scaled 1 m e).2 / 10) +:+ "." +:+
  frac_digits 1 (round_half_even (scaled 1 m e).1 (scaled 1 m e).2 mod 10).
Proof.
  unfold format_fixed. destruct (scaled 1 m e) as [num den]. reflexivity.
Qed.

(** X1. Protein and carbs are written through '.1f': the sign, the
    integer part, a point and exactly one digit, where the number of
    tenths shown is the integer nearest to ten times the absolute value,
    and the even one when that lies exactly half way. *)
Theorem one_decimal_round_half_even (neg : bool) (m : N) (e : Z) :
  exists n : N,
    format_fixed 1 (Finite neg m e) =
      sign_prefix neg +:+ digits (n / 10) +:+ "." +:+ digits (n mod 10) /\
    String.length (digits (n mod 10)) = 1 /\
    (2 * tenths_distance_to n (Finite neg m e) <= float_den (Finite neg m e))%Z /\
    ((2 * tenths_distance_to n (Finite neg m e) <? float_den (Finite neg m e))%Z
     || N.even n = true).
Proof.
  exists (round_half_even (scaled 1 m e).1 (scaled 1 m e).2).
  assert (Hlen : String.length
            (digits (round_half_even (scaled 1 m e).1 (scaled 1 m e).2 mod 10)) = 1)
    by (apply one_digit, N.mod_lt; discriminate).
  split; [|split; [exact Hlen|]].
  - rewrite format_tenths. unfold frac_digits. rewrite Hlen. reflexivity.
  - destruct (scaled_tenths neg m e) as (Hnum & Hden & Hpos).
    pose proof (round_half_even_nearest (scaled 1 m e).1 _ Hpos) as Hround.
    cbv zeta in Hround.
    unfold tenths_distance_to. rewrite <- Hnum, <- Hden. exact Hround.
Qed.

(** X2. A float whose value is a whole number (exponent not negative) is
    written as that number: '.0f' gives its digits, '.1f' its digits
    followed by ".0". *)
Theorem whole_numbers_are_shown_exactly (neg : bool) (m : N) (e : Z) :
  (0 <= e)%Z ->
  format_fixed 0 (Finite neg m e) = sign_prefix neg +:+ digits (m * 2 ^ Z.to_N e) /\
  format_fixed 1 (Finite neg m e) =
    sign_prefix neg +:+ digits (m * 2 ^ Z.to_N e) +:+ ".0".
Proof.
  intros He.
  assert (Hround : forall k : N, round_half_even k 1 = k).
  { intros k. unfold round_half_even. rewrite N.div_1_r, N.mod_1_r. reflexivity. }
  unfold format_fixed, scaled.
  destruct (Z.leb_spec 0 e) as [_|Hneg]; [|lia].
  rewrite !Hround.
  change (10 ^ N.of_nat 0)%N with 1%N. change (10 ^ N.of_nat 1)%N with 10%N.
  rewrite N.mul_1_r, N.div_1_r, append_empty_r.
  split; [reflexivity|].
  rewrite N.div_mul by discriminate.
  rewrite N.Div0.mod_mul. reflexivity.
Qed.

Lemma whole_numbers_are_shown_exactly_witness :
  (0 <= 2)%Z /\
  format_fixed 0 (Finite true 5 2) = sign_prefix true +:+ digits (5 * 2 ^ Z.to_N 2) /\
  format_fixed 1 (Finite true 5 2) =
    sign_prefix true +:+ digits (5 * 2 ^ Z.to_N 2) +:+ ".0".
Proof.
  split; [lia|]. apply (whole_numbers_are_shown_exactly true 5 2). lia.
Defined.

Lemma round_half_even_monotone (a1 d1 a2 d2 : N) :
  (0 < d1)%N -> (0 < d2)%N -> (a1 * d2 <= a2 * d1)%N ->
  (round_half_even a1 d1 <= round_half_even a2 d2)%N.
Proof.
  intros H1 H2 Hle.
  destruct (round_half_even_nearest a1 d1 H1) as [Hn1 He1].
  destruct (round_half_even_nearest a2 d2 H2) as [Hn2 He2].
  cbv zeta in *.
  set (n1 := round_half_even a1 d1) in *. set (n2 := round_half_even a2 d2) in *.
  destruct (N.le_gt_cases n1 n2) as [Hok|Hgt]; [exact Hok|exfalso].
  assert (Hlow : (2 * Z.of_N a1 >= (2 * Z.of_N n1 - 1) * Z.of_N d1)%Z) by lia.
  assert (Hhigh : (2 * Z.of_N a2 <= (2 * Z.of_N n2 + 1) * Z.of_N d2)%Z) by lia.
  assert (Hprod : ((2 * Z.of_N n1 - 1) * (Z.of_N d1 * Z.of_N d2)
                   <= (2 * Z.of_N n2 + 1) * (Z.of_N d1 * Z.of_N d2))%Z) by nia.
  assert (Hnext : n1 = (n2 + 1)%N) by nia.
  assert (Htie1 : (2 * Z.of_N a1 = (2 * Z.of_N n1 - 1) * Z.of_N d1)%Z) by nia.
  assert (Htie2 : (2 * Z.of_N a2 = (2 * Z.of_N n2 + 1) * Z.of_N d2)%Z) by nia.
  assert (Heven1 : N.even n1 = true).
  { apply orb_true_iff in He1 as [Hlt|Hev]; [|exact Hev].
    apply Z.ltb_lt in Hlt. lia. }
  assert (Heven2 : N.even n2 = true).
  { apply orb_true_iff in He2 as [Hlt|Hev]; [|exact Hev].
    apply Z.ltb_lt in Hlt. lia. }
  subst n1. rewrite Hnext in Heven1.
  replace (n2 + 1)%N with (N.succ n2) in Heven1 by lia.
  rewrite N.even_succ, <- N.negb_even, Heven2 in Heven1. discriminate.
Qed.

(** X3. Rounding to whole units keeps the order: of two finite floats
    that are not negative, the larger is never shown as the smaller
    number. *)
Theorem whole_units_keep_order (m1 m2 : N) (e1 e2 : Z) :
  float_le (Finite false m1 e1) (Finite false m2 e2) ->
  exists n1 n2 : N,
    format_fixed 0 (Finite false m1 e1) = digits n1 /\
    format_fixed 0 (Finite false m2 e2) = digits n2 /\
    (n1 <= n2)%N.
Proof.
  intros Hle.
  exists (round_half_even (scaled 0 m1 e1).1 (scaled 0 m1 e1).2),
         (round_half_even (scaled 0 m2 e2).1 (scaled 0 m2 e2).2).
  split; [apply (format_whole false)|]. split; [apply (format_whole false)|].
  destruct (scaled_exact false m1 e1) as (Hn1 & Hd1 & Hp1).
  destruct (scaled_exact false m2 e2) as (Hn2 & Hd2 & Hp2).
  apply round_half_even_monotone; [assumption..|].
  unfold float_le in Hle.
  assert (Hpos : forall m e, (0 <= float_num (Finite false m e))%Z).
  { intros m e. cbn [float_num]. destruct (0 <=? e)%Z eqn:He; [|lia].
    apply Z.leb_le in He. apply Z.mul_nonneg_nonneg; [lia|]. apply Z.pow_nonneg; lia. }
  rewrite Z.abs_eq in Hn1 by apply Hpos. rewrite Z.abs_eq in Hn2 by apply Hpos.
  rewrite <- Hn1, <- Hn2, <- Hd1, <- Hd2 in Hle. lia.
Qed.

Lemma whole_units_keep_order_witness :
  float_le eighty_and_a_half eighty_one_and_a_half /\
  exists n1 n2 : N,
    format_fixed 0 eighty_and_a_half = digits n1 /\
    format_fixed 0 eighty_one_and_a_half = digits n2 /\
    (n1 <= n2)%N.
Proof.
  assert (H : float_le eighty_and_a_half eighty_one_and_a_half)
    by (unfold float_le; vm_compute; discriminate).
  split; [exact H|].
  exact (whole_units_keep_order 161 163 (-1) (-1) H).
Defined.

(** ** display_nutrition_results (lines 123-160) *)

(** X4. For every analysis the page of the renderer is the summary
    fragment, then the heading "Food Items Detected", then one item
    fragment per food item in the order of [food_items], and nothing
    else: one summary fragment, and the item fragments of the page are the
    cards of the items, one for one. *)
Theorem fragments_follow_items (a : NutritionAnalysis) (s : session) :
  page_of (display_nutrition_results a s) =
    Markdown (summary_html a) true ::
    Subheader "📋 Food Items Detected" ::
    map (fun item => Markdown (item_html item) true) (food_items a) /\
  head (page_of (display_nutrition_results a s)) = Some (Markdown (summary_html a) true) /\
  page_of (display_nutrition_results a s) !! 1 =
    Some (Subheader "📋 Food Items Detected") /\
  count_fragments is_summary_fragment (page_of (display_nutrition_results a s)) = 1 /\
  filter (fun e => is_item_fragment e = true) (page_of (display_nutrition_results a s)) =
    map (fun item => Markdown (item_html item) true) (food_items a) /\
  length (page_of (display_nutrition_results a s)) = 2 + length (food_items a).
Proof.
  rewrite display_run. cbn [page_of snd].
  split; [reflexivity|]. split; [reflexivity|]. split; [reflexivity|].
  split; [apply count_summary_rendered|].
  unfold rendered. split.
  - rewrite filter_cons_False by discriminate.
    rewrite filter_cons_False by discriminate.
    induction (food_items a) as [|item rest IH]; [reflexivity|].
    cbn [map]. rewrite filter_cons_True by apply item_is_item.
    rewrite IH. reflexivity.
  - cbn [length]. rewrite length_map. reflexivity.
Qed.

(** X5. The renderer escapes nothing: every fragment is sent with
    [unsafe_allow_html=True] (the only other element is the heading), and
    the name of an item and the confidence label are copied into the HTML
    as they are, whatever characters they hold. *)
Theorem texts_are_inserted_verbatim (a : NutritionAnalysis) (item : FoodItem)
    (s : session) :
  forallb (fun e => is_raw_html e || is_subheader e)
          (page_of (display_nutrition_results a s)) = true /\
  contains ("<h4>🍽️ " +:+ name item +:+ "</h4>") (item_html item) = true /\
  contains ("<br><small>Confidence: " +:+ confidence_level a +:+ "</small>")
           (summary_html a) = true.
Proof.
  rewrite display_run. cbn [page_of snd]. split; [|split].
  - unfold rendered. cbn [forallb is_raw_html is_subheader orb andb].
    induction (food_items a) as [|i rest IH]; [reflexivity|exact IH].
  - eapply contains_concat; [do 2 right; left; reflexivity|].
    apply (contains_app_r _ "            "), contains_refl.
  - eapply contains_concat; [do 3 right; left; reflexivity|].
    apply (contains_app_r _ "        "), contains_refl.
Qed.

(** X6. In the card of every item each value stands in the cell of its
    own label: the calories in whole units over "Calories", the protein
    with one decimal and "g" over "Protein", the carbs with one decimal
    and "g" over "Carbs". *)
Theorem values_stand_over_their_labels (item : FoodItem) :
  contains (nutrition_cell (format_fixed 0 (calories item)) "Calories")
           (item_html item) = true /\
  contains (nutrition_cell (format_fixed 1 (protein_grams item) +:+ "g") "Protein")
           (item_html item) = true /\
  contains (nutrition_cell (format_fixed 1 (carbs_grams item) +:+ "g") "Carbs")
           (item_html item) = true.
Proof.
  unfold nutrition_cell, item_html. rewrite !append_assoc.
  split; [|split].
  - do 7 apply contains_concat_tail.
    apply (contains_value_and_label "                    "
             ("<div style=" +:+ quoted "font-weight: bold;" +:+ ">")
             (format_fixed 0 (calories item)) "</div>" nl).
  - do 12 apply contains_concat_tail.
    apply (contains_value_and_label "                    "
             ("<div style=" +:+ quoted "font-weight: bold;" +:+ ">")
             (format_fixed 1 (protein_grams item)) "g</div>" nl).
  - do 17 apply contains_concat_tail.
    apply (contains_value_and_label "                    "
             ("<div style=" +:+ quoted "font-weight: bold;" +:+ ">")
             (format_fixed 1 (carbs_grams item)) "g</div>" nl).
Qed.

(** ** Validation of the reply (lines 64-74, 111-117) *)

Lemma obj_get_other (k k' : string) (v : json) (l1 l2 : list (string * json)) :
  String.eqb k' k = false ->
  obj_get k' (l1 ++ (k, v) :: l2) = obj_get k' (l1 ++ l2).
Proof.
  intros Hne. induction l1 as [|[k1 v1] l1 IH].
  - cbn [app obj_get]. rewrite Hne. destruct (obj_get k' l2); reflexivity.
  - cbn [app obj_get]. rewrite IH. reflexivity.
Qed.

(** X7. Validation keeps the items of the reply: when a reply validates,
    it is an object whose [food_items] is an array, and the validated
    items are the elements of that array validated one by one, as many
    and in the same order; the two scalars are the coerced fields. *)
Theorem validation_keeps_the_items (fv : json -> option pyfloat)
    (sv : json -> option string) (payload : json) (a : NutritionAnalysis) :
  NutritionAnalysis_validate fv sv payload = Some a ->
  exists (fs : list (string * json)) (xs : list json),
    payload = JObj fs /\
    obj_get "food_items" fs = Some (JArr xs) /\
    Forall2 (fun x item => FoodItem_validate fv sv x = Some item) xs (food_items a) /\
    length (food_items a) = length xs /\
    obj_get "total_calories" fs ≫= fv = Some (total_calories a) /\
    obj_get "confidence_level" fs ≫= sv = Some (confidence_level a).
Proof.
  destruct payload as [| | | | |fs]; try discriminate.
  unfold NutritionAnalysis_validate.
  remember (obj_get "total_calories" fs ≫= fv) as t eqn:Ht.
  remember (obj_get "confidence_level" fs ≫= sv) as c eqn:Hc.
  intros H.
  destruct (obj_get "food_items" fs) as [[| | | |xs|]|] eqn:Hitems; try discriminate H.
  cbn in H.
  destruct (mapM (FoodItem_validate fv sv) xs) as [items|] eqn:Hmap; [|discriminate H].
  destruct t as [total|]; [|discriminate H].
  destruct c as [conf|]; [|discriminate H].
  cbn in H. injection H as <-. cbn [food_items total_calories confidence_level].
  apply mapM_Some in Hmap.
  exists fs, xs.
  split; [reflexivity|]. split; [exact Hitems|]. split; [exact Hmap|].
  split; [symmetry; exact (Forall2_length _ _ _ Hmap)|].
  split; symmetry; assumption.
Qed.

Lemma validation_keeps_the_items_witness :
  NutritionAnalysis_validate number_as_float string_as_str
    (NutritionAnalysis_json scenario_B) = Some scenario_B /\
  exists (fs : list (string * json)) (xs : list json),
    NutritionAnalysis_json scenario_B = JObj fs /\
    obj_get "food_items" fs = Some (JArr xs) /\
    Forall2 (fun x item =>
               FoodItem_validate number_as_float string_as_str x = Some item)
            xs (food_items scenario_B) /\
    length (food_items scenario_B) = length xs /\
    obj_get "total_calories" fs ≫= number_as_float = Some (total_calories scenario_B) /\
    obj_get "confidence_level" fs ≫= string_as_str = Some (confidence_level scenario_B).
Proof.
  split; [reflexivity|].
  apply (validation_keeps_the_items number_as_float string_as_str
           (NutritionAnalysis_json scenario_B) scenario_B).
  reflexivity.
Defined.

(** X8. A field the models do not declare is ignored: a reply, or an
    item, validates to the same result with and without it, wherever it
    stands in the object. *)
Theorem undeclared_fields_are_ignored (fv : json -> option pyfloat)
    (sv : json -> option string) (k : string) (v : json)
    (l1 l2 : list (string * json)) :
  existsb (String.eqb k) (NutritionAnalysis_fields ++ FoodItem_fields) = false ->
  NutritionAnalysis_validate fv sv (JObj (l1 ++ (k, v) :: l2)) =
    NutritionAnalysis_validate fv sv (JObj (l1 ++ l2)) /\
  FoodItem_validate fv sv (JObj (l1 ++ (k, v) :: l2)) =
    FoodItem_validate fv sv (JObj (l1 ++ l2)).
Proof.
  intros Hk. cbn [app NutritionAnalysis_fields FoodItem_fields existsb] in Hk.
  repeat (apply orb_false_iff in Hk as [?%String.eqb_neq Hk]).
  unfold NutritionAnalysis_validate, FoodItem_validate.
  rewrite !obj_get_other by (apply String.eqb_neq; congruence).
  split; reflexivity.
Qed.

Lemma undeclared_fields_are_ignored_witness :
  existsb (String.eqb "fat_total") (NutritionAnalysis_fields ++ FoodItem_fields) = false /\
  NutritionAnalysis_validate number_as_float string_as_str reply_with_fat =
    NutritionAnalysis_validate number_as_float string_as_str
      (NutritionAnalysis_json scenario_A) /\
  FoodItem_validate number_as_float string_as_str reply_with_fat =
    FoodItem_validate number_as_float string_as_str (NutritionAnalysis_json scenario_A).
Proof.
  split; [reflexivity|].
  apply (undeclared_fields_are_ignored number_as_float string_as_str
           "fat_total" (JNum half)
           [("food_items", JArr [FoodItem_json apple])]
           [("total_calories", JNum (float_of_Z 80));
            ("confidence_level", JStr "high")]).
  reflexivity.
Defined.

(** ** analyze_food_image and main (lines 81-121, 163-251) *)

Lemma count_footer_rendered (a : NutritionAnalysis) :
  count_fragments is_footer (rendered a) = 0.
Proof.
  unfold rendered. rewrite !count_cons.
  change (is_footer (Markdown (summary_html a) true)) with false.
  cbn [is_footer Nat.add].
  induction (food_items a) as [|item rest IH]; [reflexivity|].
  cbn [map]. rewrite count_cons.
  change (is_footer (Markdown (item_html item) true)) with false. exact IH.
Qed.

Section MoreRunFacts.
Context {UploadedFile Image : Type}.
Implicit Types (w : World UploadedFile Image) (s : session).

Lemma service_input_Some w bytes :
  service_input w = Some bytes ->
  exists src image,
    image_source w = Some src /\ Image_open w src = Returned image /\
    st_image w image = Returned tt /\
    button w = true /\ save_JPEG w image = Returned bytes.
Proof.
  unfold service_input. intros H.
  destruct (image_source w) as [src|]; [|discriminate H].
  destruct (Image_open w src) as [image|e] eqn:Hopen; [|discriminate H].
  destruct (st_image w image) as [[]|e] eqn:Hshow; [|discriminate H].
  destruct (button w); [|discriminate H].
  destruct (save_JPEG w image) as [b|e] eqn:Hsave; [|discriminate H].
  injection H as ->. eauto 10.
Qed.

(** The run that reaches the service, by what the service does. *)
Lemma main_at_service w bytes s :
  service_input w = Some bytes ->
  main w s =
  match client w (build_request bytes) with
  | Raises e =>
      if is_Exception e
      then (Returned tt, s,
            intro_elements ++
            (photo_elements ++
             [spinner; Error ("Error analyzing image: " +:+ exc_str e); failure_notice]) ++
            outro_elements)
      else (Raised e, s, intro_elements ++ photo_elements ++ [spinner])
  | Responds None =>
      (Returned tt, s,
       intro_elements ++ (photo_elements ++ [spinner; failure_notice]) ++ outro_elements)
  | Responds (Some a) =>
      (Returned tt, <["last_analysis" := a]> s,
       intro_elements ++
       (photo_elements ++ spinner :: Success "✅ Analysis complete!" :: rendered a) ++
       outro_elements)
  end.
Proof.
  intros (src & image & Hsrc & Hopen & Hshow & Hbutton & Hsave)%service_input_Some.
  rewrite main_run, Hsrc, process_image_run, Hopen, Hshow, Hbutton,
    analyze_block_run, Hsave.
  destruct (client w (build_request bytes)) as [e|[a|]]; try reflexivity.
  destruct (is_Exception e); reflexivity.
Qed.

(** X9. An exception of the service that does not derive from Exception
    is not caught: it leaves [analyze_food_image] and [main], no error
    notice is shown, the page ends after the spinner (no footer), and the
    session state is left as it was. *)
Theorem base_exceptions_are_not_caught w bytes (e : py_exception) s :
  service_input w = Some bytes ->
  client w (build_request bytes) = Raises e ->
  is_Exception e = false ->
  analyze_food_image (client w) bytes s = (Raised e, s, []) /\
  main w s = (Raised e, s, intro_elements ++ photo_elements ++ [spinner]).
Proof.
  intros Hin Hraise Hbase. split.
  - rewrite analyze_run, Hraise, Hbase. reflexivity.
  - rewrite (main_at_service w bytes s Hin), Hraise, Hbase. reflexivity.
Qed.

(** X10. When a call of the service raises an Exception, the page shows
    two error notices, one after the other: "Error analyzing image: "
    followed by the text of the exception as it is, then the general
    failure notice; the run ends normally with the footer. *)
Theorem exception_text_is_shown w bytes (e : py_exception) s :
  service_input w = Some bytes ->
  client w (build_request bytes) = Raises e ->
  is_Exception e = true ->
  main w s =
  (Returned tt, s,
   intro_elements ++
   (photo_elements ++
    [spinner; Error ("Error analyzing image: " +:+ exc_str e); failure_notice]) ++
   outro_elements).
Proof.
  intros Hin Hraise Hexc.
  rewrite (main_at_service w bytes s Hin), Hraise, Hexc. reflexivity.
Qed.

(** X11. When the service answers but the reply did not validate
    ([parsed] is None), [analyze_food_image] shows nothing itself: the
    only error element of the page is the general failure notice, with no
    cause. *)
Theorem unparsed_reply_shows_one_notice w bytes s :
  service_input w = Some bytes ->
  client w (build_request bytes) = Responds None ->
  analyze_food_image (client w) bytes s = (Returned None, s, []) /\
  main w s =
  (Returned tt, s,
   intro_elements ++ (photo_elements ++ [spinner; failure_notice]) ++ outro_elements).
Proof.
  intros Hin Hnone. split.
  - rewrite analyze_run, Hnone. reflexivity.
  - rewrite (main_at_service w bytes s Hin), Hnone. reflexivity.
Qed.

(** X12. A successful analysis is shown and kept: the page shows the
    success notice and the rendering of the analysis, the slot holds it
    whatever it held before, and the next run without a picture shows
    that same rendering under "Last Analysis". *)
Theorem success_is_shown_and_kept w bytes (a : NutritionAnalysis) s :
  service_input w = Some bytes ->
  client w (build_request bytes) = Responds (Some a) ->
  main w s =
    (Returned tt, <["last_analysis" := a]> s,
     intro_elements ++
     (photo_elements ++ spinner :: Success "✅ Analysis complete!" :: rendered a) ++
     outro_elements) /\
  session_of (main w s) !! "last_analysis" = Some a /\
  (forall w' : World UploadedFile Image,
     main (without_camera (without_upload w')) (session_of (main w s)) =
     (Returned tt, <["last_analysis" := a]> s,
      intro_elements ++ (Subheader "📊 Last Analysis" :: rendered a) ++ outro_elements)).
Proof.
  intros Hin Hok.
  rewrite (main_at_service w bytes s Hin), Hok. cbn [session_of fst snd].
  split; [reflexivity|]. split; [apply lookup_insert_eq|].
  intros w'. rewrite main_run. cbn [image_source without_camera without_upload
    camera_image uploaded_file py_or].
  unfold previous_section. rewrite lookup_insert_eq. reflexivity.
Qed.

(** X13. The slot holds the most recent success only: after two
    successful runs the session state is the one the second run alone
    would have left. *)
Theorem latest_success_supersedes w1 w2 bytes1 bytes2
    (a1 a2 : NutritionAnalysis) s :
  service_input w1 = Some bytes1 ->
  client w1 (build_request bytes1) = Responds (Some a1) ->
  service_input w2 = Some bytes2 ->
  client w2 (build_request bytes2) = Responds (Some a2) ->
  session_of (main w2 (session_of (main w1 s))) = session_of (main w2 s) /\
  session_of (main w2 (session_of (main w1 s))) !! "last_analysis" = Some a2.
Proof.
  intros Hin1 Hok1 Hin2 Hok2.
  rewrite !session_after_run, Hin1, Hin2, Hok1, Hok2.
  rewrite insert_insert_eq. split; [reflexivity | apply lookup_insert_eq].
Qed.

(** X14. A run touches no other key of the session state than
    "last_analysis". *)
Theorem other_keys_are_untouched w s (k : string) :
  k <> "last_analysis" ->
  session_of (main w s) !! k = s !! k.
Proof.
  intros Hk. rewrite session_after_run.
  destruct (service_input w) as [bytes|]; [|reflexivity].
  destruct (client w (build_request bytes)) as [e|[a|]]; try reflexivity.
  apply lookup_insert_ne. congruence.
Qed.

(** X15. [main] does not handle a picture that cannot be decoded: the
    exception of [Image.open], of whatever class, leaves [main]; the page
    stops after the heading of the photo (no stored analysis, no footer)
    and the session state is left as it was. *)
Theorem undecodable_picture_aborts_the_run w (src : UploadedFile)
    (e : py_exception) s :
  image_source w = Some src ->
  Image_open w src = Raised e ->
  main w s = (Raised e, s, intro_elements ++ [Subheader "🖼️ Your Food Photo"]).
Proof.
  intros Hsrc Hopen.
  rewrite main_run, Hsrc, process_image_run, Hopen. reflexivity.
Qed.

(** X16. [main] does not handle a picture that cannot be encoded to JPEG
    either: once the picture is decoded and shown and the button pressed,
    the exception of [image.save] leaves [main] after the spinner, the
    service is not called (the run is the same against any service) and
    the session state is left as it was. *)
Theorem unencodable_picture_aborts_the_run w (src : UploadedFile) (image : Image)
    (e : py_exception) (c : service) s :
  image_source w = Some src ->
  Image_open w src = Returned image ->
  st_image w image = Returned tt ->
  button w = true ->
  save_JPEG w image = Raised e ->
  main w s = (Raised e, s, intro_elements ++ photo_elements ++ [spinner]) /\
  main (with_client c w) s = main w s.
Proof.
  intros Hsrc Hopen Hshow Hbutton Hsave.
  assert (Hrun : forall w0 : World UploadedFile Image,
            image_source w0 = Some src -> Image_open w0 src = Returned image ->
            st_image w0 image = Returned tt ->
            button w0 = true -> save_JPEG w0 image = Raised e ->
            main w0 s = (Raised e, s, intro_elements ++ photo_elements ++ [spinner])).
  { intros w0 H1 H2 H3 H4 H5.
    rewrite main_run, H1, process_image_run, H2, H3, H4, analyze_block_run, H5.
    reflexivity. }
  split; [apply Hrun; assumption|].
  rewrite (Hrun w) by assumption. apply Hrun; assumption.
Qed.

(** X22. [main] does not handle a picture that opens but cannot be
    shown either ([Image.open] reads the header only; [st.image] decodes
    the pixels): the exception of [st.image] leaves [main], the page
    stops after the heading of the photo, with no picture, no button and
    no footer, the service is not called and the session state is left
    as it was. *)
Theorem undisplayable_picture_aborts_the_run w (src : UploadedFile) (image : Image)
    (e : py_exception) (c : service) s :
  image_source w = Some src ->
  Image_open w src = Returned image ->
  st_image w image = Raised e ->
  main w s = (Raised e, s, intro_elements ++ [Subheader "🖼️ Your Food Photo"]) /\
  main (with_client c w) s = main w s.
Proof.
  intros Hsrc Hopen Hshow.
  assert (Hrun : forall w0 : World UploadedFile Image,
            image_source w0 = Some src -> Image_open w0 src = Returned image ->
            st_image w0 image = Raised e ->
            main w0 s =
            (Raised e, s, intro_elements ++ [Subheader "🖼️ Your Food Photo"])).
  { intros w0 H1 H2 H3.
    rewrite main_run, H1, process_image_run, H2, H3. reflexivity. }
  split; [apply Hrun; assumption|].
  rewrite (Hrun w) by assumption. apply Hrun; assumption.
Qed.

(** X17. The service is consulted only by a run that reaches it (picture
    selected and decoded, button pressed, JPEG encoded): any other run is
    the same against any service, and leaves the session state as it
    was. *)
Theorem service_is_called_only_when_reached w (c : service) s :
  service_input w = None ->
  main (with_client c w) s = main w s /\
  session_of (main w s) = s.
Proof.
  intros Hnone. split; [|rewrite session_after_run, Hnone; reflexivity].
  destruct w as [cam upl b io si sj cl].
  unfold service_input in Hnone. rewrite !main_run.
  unfold with_client, image_source in *.
  cbn [camera_image uploaded_file button Image_open st_image save_JPEG client] in *.
  destruct (py_or cam upl) as [src|]; [|reflexivity].
  rewrite !process_image_run.
  cbn [button Image_open st_image save_JPEG client] in *.
  destruct (io src) as [image|e]; [|reflexivity].
  destruct (si image) as [[]|e]; [|reflexivity].
  destruct b; [|reflexivity].
  rewrite !analyze_block_run. cbn [button Image_open st_image save_JPEG client].
  destruct (sj image) as [bytes|e]; [discriminate Hnone|reflexivity].
Qed.

(** X18. [main] raises nothing of its own, in particular no KeyError
    from the session state: an exception that leaves [main] was raised by
    [Image.open], by [st.image] on the decoded picture, by [image.save],
    or by the service with a class that does not derive from Exception. *)
Theorem main_raises_only_what_it_is_given w s (e : py_exception) :
  result_of (main w s) = Raised e ->
  exists src : UploadedFile,
    image_source w = Some src /\
    (Image_open w src = Raised e \/
     exists image : Image,
       Image_open w src = Returned image /\
       (st_image w image = Raised e \/
        st_image w image = Returned tt /\ button w = true /\
        (save_JPEG w image = Raised e \/
         exists bytes : list Byte.byte,
           save_JPEG w image = Returned bytes /\
           client w (build_request bytes) = Raises e /\
           is_Exception e = false))).
Proof.
  rewrite main_run.
  destruct (image_source w) as [src|]; [|discriminate].
  rewrite process_image_run. intros H. exists src. split; [reflexivity|].
  destruct (Image_open w src) as [image|e0]; [|injection H as ->; left; reflexivity].
  right. exists image. split; [reflexivity|].
  destruct (st_image w image) as [[]|e0]; [|injection H as ->; left; reflexivity].
  right. split; [reflexivity|].
  destruct (button w); [|discriminate H]. split; [reflexivity|].
  rewrite analyze_block_run in H.
  destruct (save_JPEG w image) as [bytes|e0]; [|injection H as ->; left; reflexivity].
  right. exists bytes. split; [reflexivity|].
  destruct (client w (build_request bytes)) as [e0|[a|]]; [|discriminate H..].
  destruct (is_Exception e0) eqn:Hexc; [discriminate H|].
  injection H as ->. split; [reflexivity | exact Hexc].
Qed.

(** X19. Every page begins with the title, the tag line, the heading of
    the capture, the folded instructions, the camera widget, the upload
    hint and the file uploader, in this order, and the footer is on the
    page exactly when the run ends normally, then once. *)
Theorem intro_always_footer_on_return w s :
  take 7 (page_of (main w s)) =
    [Title "🍎 Food Calorie Scanner";
     Markdown "📱 *Take a photo of your food to get instant nutrition analysis*" false;
     Subheader "📸 Capture Your Food";
     Expander "📋 How to use" false [Markdown how_to_use false];
     CameraInput "📷 Take a picture of your food";
     Markdown "*Or upload an image:*" false;
     FileUploader "Choose an image..." ["jpg"; "jpeg"; "png"] "collapsed"] /\
  count_fragments is_footer (page_of (main w s)) =
    match result_of (main w s) with
    | Returned _ => 1
    | Raised _ => 0
    end.
Proof.
  rewrite main_run.
  assert (Hprev : count_fragments is_footer (previous_section s) = 0).
  { unfold previous_section. destruct (s !! "last_analysis") as [a|]; [|reflexivity].
    rewrite count_cons. apply count_footer_rendered. }
  destruct (image_source w) as [src|].
  - rewrite process_image_run.
    destruct (Image_open w src) as [image|e]; [|split; reflexivity].
    destruct (st_image w image) as [[]|e]; [|split; reflexivity].
    destruct (button w); [|split; reflexivity].
    rewrite analyze_block_run.
    destruct (save_JPEG w image) as [bytes|e]; [|split; reflexivity].
    destruct (client w (build_request bytes)) as [e|[a|]].
    + destruct (is_Exception e); split; reflexivity.
    + split; [reflexivity|]. cbn [page_of result_of fst snd].
      rewrite !count_app, !count_cons, count_footer_rendered. reflexivity.
    + split; reflexivity.
  - cbn [page_of result_of fst snd]. split; [reflexivity|].
    rewrite !count_app, Hprev. reflexivity.
Qed.
End MoreRunFacts.

(** ** The further theorems at concrete runs *)

Lemma base_exceptions_are_not_caught_witness :
  service_input interrupted_run = Some [] /\
  client interrupted_run (build_request []) = Raises keyboard_interrupt /\
  is_Exception keyboard_interrupt = false /\
  analyze_food_image (client interrupted_run) [] after_scenario_A =
    (Raised keyboard_interrupt, after_scenario_A, []) /\
  main interrupted_run after_scenario_A =
    (Raised keyboard_interrupt, after_scenario_A,
     intro_elements ++ photo_elements ++ [spinner]).
Proof.
  split; [reflexivity|]. split; [reflexivity|]. split; [reflexivity|].
  apply (base_exceptions_are_not_caught interrupted_run [] keyboard_interrupt
           after_scenario_A); reflexivity.
Defined.

Lemma exception_text_is_shown_witness :
  service_input timeout_run = Some [] /\
  client timeout_run (build_request []) = Raises read_timeout /\
  is_Exception read_timeout = true /\
  main timeout_run ∅ =
  (Returned tt, ∅,
   intro_elements ++
   (photo_elements ++
    [spinner; Error ("Error analyzing image: " +:+ exc_str read_timeout);
     failure_notice]) ++
   outro_elements).
Proof.
  split; [reflexivity|]. split; [reflexivity|]. split; [reflexivity|].
  apply (exception_text_is_shown timeout_run [] read_timeout ∅); reflexivity.
Defined.

Lemma unparsed_reply_shows_one_notice_witness :
  service_input unparsed_run = Some [] /\
  client unparsed_run (build_request []) = Responds None /\
  analyze_food_image (client unparsed_run) [] ∅ = (Returned None, ∅, []) /\
  main unparsed_run ∅ =
  (Returned tt, ∅,
   intro_elements ++ (photo_elements ++ [spinner; failure_notice]) ++ outro_elements).
Proof.
  split; [reflexivity|]. split; [reflexivity|].
  apply (unparsed_reply_shows_one_notice unparsed_run [] ∅); reflexivity.
Defined.

Lemma success_is_shown_and_kept_witness :
  service_input scenario_B_run = Some [] /\
  client scenario_B_run (build_request []) = Responds (Some scenario_B) /\
  session_of (main scenario_B_run after_scenario_A) !! "last_analysis" = Some scenario_B /\
  page_of (main (without_camera (without_upload scenario_B_run))
                (session_of (main scenario_B_run after_scenario_A))) =
    intro_elements ++ (Subheader "📊 Last Analysis" :: rendered scenario_B) ++
    outro_elements.
Proof.
  split; [reflexivity|]. split; [reflexivity|].
  destruct (success_is_shown_and_kept scenario_B_run [] scenario_B after_scenario_A
              eq_refl eq_refl) as (_ & Hslot & Hnext).
  split; [exact Hslot|]. rewrite (Hnext scenario_B_run). reflexivity.
Defined.

Lemma latest_success_supersedes_witness :
  service_input scenario_A_run = Some [] /\
  client scenario_A_run (build_request []) = Responds (Some scenario_A) /\
  service_input scenario_B_run = Some [] /\
  client scenario_B_run (build_request []) = Responds (Some scenario_B) /\
  session_of (main scenario_B_run (session_of (main scenario_A_run ∅))) =
    session_of (main scenario_B_run ∅) /\
  session_of (main scenario_B_run (session_of (main scenario_A_run ∅)))
    !! "last_analysis" = Some scenario_B.
Proof.
  split; [reflexivity|]. split; [reflexivity|].
  split; [reflexivity|]. split; [reflexivity|].
  apply (latest_success_supersedes scenario_A_run scenario_B_run [] []
           scenario_A scenario_B ∅); reflexivity.
Defined.

Lemma other_keys_are_untouched_witness :
  "draft" <> "last_analysis" /\
  session_of (main scenario_A_run with_other_key) !! "draft" = with_other_key !! "draft".
Proof.
  assert (H : "draft" <> "last_analysis") by discriminate.
  split; [exact H|].
  exact (other_keys_are_untouched scenario_A_run with_other_key "draft" H).
Defined.

Lemma undecodable_picture_aborts_the_run_witness :
  image_source undecodable_run = Some tt /\
  Image_open undecodable_run tt = Raised cannot_identify /\
  main undecodable_run after_scenario_A =
    (Raised cannot_identify, after_scenario_A,
     intro_elements ++ [Subheader "🖼️ Your Food Photo"]).
Proof.
  split; [reflexivity|]. split; [reflexivity|].
  apply (undecodable_picture_aborts_the_run undecodable_run tt cannot_identify
           after_scenario_A); reflexivity.
Defined.

Lemma undisplayable_picture_aborts_the_run_witness :
  image_source undisplayable_run = Some tt /\
  Image_open undisplayable_run tt = Returned tt /\
  st_image undisplayable_run tt = Raised truncated /\
  main undisplayable_run after_scenario_A =
    (Raised truncated, after_scenario_A,
     intro_elements ++ [Subheader "🖼️ Your Food Photo"]) /\
  main (with_client unparsed undisplayable_run) after_scenario_A =
    main undisplayable_run after_scenario_A.
Proof.
  split; [reflexivity|]. split; [reflexivity|]. split; [reflexivity|].
  apply (undisplayable_picture_aborts_the_run undisplayable_run tt tt truncated
           unparsed after_scenario_A); reflexivity.
Defined.

Lemma unencodable_picture_aborts_the_run_witness :
  image_source unencodable_run = Some tt /\
  Image_open unencodable_run tt = Returned tt /\
  st_image unencodable_run tt = Returned tt /\
  button unencodable_run = true /\
  save_JPEG unencodable_run tt = Raised cannot_write /\
  main unencodable_run ∅ =
    (Raised cannot_write, ∅, intro_elements ++ photo_elements ++ [spinner]) /\
  main (with_client unparsed unencodable_run) ∅ = main unencodable_run ∅.
Proof.
  split; [reflexivity|]. split; [reflexivity|]. split; [reflexivity|].
  split; [reflexivity|]. split; [reflexivity|].
  apply (unencodable_picture_aborts_the_run unencodable_run tt tt cannot_write
           unparsed ∅); reflexivity.
Defined.

Lemma service_is_called_only_when_reached_witness :
  service_input unpressed_run = None /\
  main (with_client unparsed unpressed_run) after_scenario_A =
    main unpressed_run after_scenario_A /\
  session_of (main unpressed_run after_scenario_A) = after_scenario_A.
Proof.
  split; [reflexivity|].
  apply (service_is_called_only_when_reached unpressed_run unparsed after_scenario_A).
  reflexivity.
Defined.

Lemma main_raises_only_what_it_is_given_witness :
  result_of (main interrupted_run ∅) = Raised keyboard_interrupt /\
  exists src : unit,
    image_source interrupted_run = Some src /\
    (Image_open interrupted_run src = Raised keyboard_interrupt \/
     exists image : unit,
       Image_open interrupted_run src = Returned image /\
       (st_image interrupted_run image = Raised keyboard_interrupt \/
        st_image interrupted_run image = Returned tt /\
        button interrupted_run = true /\
        (save_JPEG interrupted_run image = Raised keyboard_interrupt \/
         exists bytes : list Byte.byte,
           save_JPEG interrupted_run image = Returned bytes /\
           client interrupted_run (build_request bytes) = Raises keyboard_interrupt /\
           is_Exception keyboard_interrupt = false))).
Proof.
  split; [reflexivity|].
  apply (main_raises_only_what_it_is_given interrupted_run ∅ keyboard_interrupt).
  reflexivity.
Defined.

(** ** get_gemini_client (lines 77-79) *)

(** X20. The client is built once: after a call that returned a client,
    every later call returns that same client and leaves the cache as it
    is, whatever the environment holds by then and whatever the
    constructor would do; a key changed afterwards is not picked up. *)
Theorem client_is_built_once {Client : Type} (new new' : string -> outcome Client)
    (environ environ' : gmap string string) (cache cache' : option Client)
    (c : Client) :
  get_gemini_client new environ cache = (Returned c, cache') ->
  get_gemini_client new' environ' cache' = (Returned c, cache').
Proof.
  unfold get_gemini_client. intros H.
  destruct cache as [c0|].
  - injection H as -> <-. reflexivity.
  - destruct (new (getenv environ "GEMINI_API_KEY" EmptyString)) as [c0|e];
      [|discriminate H].
    injection H as -> <-. reflexivity.
Qed.

Lemma client_is_built_once_witness :
  get_gemini_client refusing_empty_key first_environ None =
    (Returned "old-key", Some "old-key") /\
  get_gemini_client refusing_empty_key rotated_environ (Some "old-key") =
    (Returned "old-key", Some "old-key").
Proof.
  assert (H : get_gemini_client refusing_empty_key first_environ None =
              (Returned "old-key", Some "old-key")) by reflexivity.
  split; [exact H|].
  exact (client_is_built_once refusing_empty_key refusing_empty_key
           first_environ rotated_environ None (Some "old-key") "old-key" H).
Defined.

(** X21. The credential is not checked before the call: without
    GEMINI_API_KEY in the environment the constructor is given the empty
    key. When it refuses with an Exception, nothing is cached, and
    [analyze_food_image] reports it like any failure of the service: the
    notice "Error analyzing image: " with the text of the exception, and
    None. *)
Theorem missing_credential_is_reported {Client : Type}
    (new : string -> outcome Client) (generate : Client -> request -> sdk_outcome)
    (environ : gmap string string) (e : py_exception)
    (bytes : list Byte.byte) (s : session) :
  environ !! "GEMINI_API_KEY" = None ->
  new EmptyString = Raised e ->
  is_Exception e = true ->
  get_gemini_client new environ None = (Raised e, None) /\
  analyze_food_image (service_of new generate environ None) bytes s =
    (Returned None, s, [Error ("Error analyzing image: " +:+ exc_str e)]).
Proof.
  intros Hkey Hnew Hexc.
  assert (Hget : get_gemini_client new environ None = (Raised e, None)).
  { unfold get_gemini_client, getenv. rewrite Hkey. cbn [default]. rewrite Hnew.
    reflexivity. }
  split; [exact Hget|].
  rewrite analyze_run. unfold service_of. rewrite Hget, Hexc. reflexivity.
Qed.

Lemma missing_credential_is_reported_witness :
  (∅ : gmap string string) !! "GEMINI_API_KEY" = None /\
  refusing_empty_key EmptyString = Raised missing_key /\
  is_Exception missing_key = true /\
  get_gemini_client refusing_empty_key ∅ None = (Raised missing_key, None) /\
  analyze_food_image (service_of refusing_empty_key (fun _ _ => Responds None) ∅ None)
                     [] ∅ =
    (Returned None, ∅, [Error ("Error analyzing image: " +:+ exc_str missing_key)]).
Proof.
  split; [reflexivity|]. split; [reflexivity|]. split; [reflexivity|].
  apply (missing_credential_is_reported refusing_empty_key (fun _ _ => Responds None)
           ∅ missing_key [] ∅); reflexivity.
Defined.
